(** * k8s-deploy: values file + environment overrides -> four rendered manifests

    A shallow embedding of [app.py]: the configuration reader
    ([EnvReader]), the template renderer ([TemplateRenderer]), the manifest
    generator ([KubernetesManifestGenerator]) and the orchestrator ([App]).

    Python objects the program handles are values of [pyval]; the process
    state the program reads and writes (files, directories, environment,
    and the sequence of calls made to the outside) is a [world]; methods are
    computations in a state-and-exception monad [M].  PyYAML, Jinja2 and the
    operating system are collaborators of the program and not part of it:
    they are the fields of the class [Externals]. *)

From Stdlib Require Import ZArith String Ascii List.
From stdpp Require Import base option list gmap strings pretty.
Import ListNotations.

Local Open Scope string_scope.
Local Open Scope list_scope.
Local Open Scope nat_scope.

(** ** Python values *)

Module Py.

(** What [yaml.safe_load] hands back.  A [dict] keeps its entries in
    insertion order; a float is carried by its 64 bits, a date and a
    timestamp by their ISO text.  Tuples are the items of the lists built
    for [!!pairs] and [!!omap], a [set] comes from [!!set], [bytes] from
    [!!binary]. *)
#[warnings="-register-all"] Inductive pyval : Type :=
| PNone
| PBool (b : bool)
| PInt (z : Z)
| PFloat (bits : Z)
| PStr (s : string)
| PList (items : list pyval)
| PDict (entries : list (pyval * pyval))
| PTuple (items : list pyval)
| PSet (items : list pyval)
| PBytes (data : string)
| PDate (iso : string)
| PDateTime (iso : string).

(** Exceptions: class and [str(e)]. *)
Inductive exn_class : Type :=
| FileNotFoundError
| FileExistsError
| OSError
| IsADirectoryError
| NotADirectoryError
| YAMLError
| TypeError
| ValueError
| TemplateNotFound
| TemplateError.

Record exn : Type := Exn { exn_kind : exn_class; exn_str : string }.

Inductive result (A : Type) : Type :=
| Ok (a : A)
| Raise (e : exn).
Arguments Ok {A} a.
Arguments Raise {A} e.

Definition is_ok {A} (r : result A) : bool :=
  match r with Ok _ => true | Raise _ => false end.

Definition type_name (v : pyval) : string :=
  match v with
  | PNone => "NoneType"
  | PBool _ => "bool"
  | PInt _ => "int"
  | PFloat _ => "float"
  | PStr _ => "str"
  | PList _ => "list"
  | PDict _ => "dict"
  | PTuple _ => "tuple"
  | PSet _ => "set"
  | PBytes _ => "bytes"
  | PDate _ => "datetime.date"
  | PDateTime _ => "datetime.datetime"
  end.

(** [x == PStr key]: a [str] compares equal to a [str] with the same
    characters and to nothing else. *)
Definition is_str (key : string) (x : pyval) : bool :=
  match x with
  | PStr s => String.eqb key s
  | _ => false
  end.

(** [sub in s] on two strings: substring test. *)
Fixpoint str_contains (sub s : string) : bool :=
  String.prefix sub s ||
  match s with
  | EmptyString => false
  | String _ s' => str_contains sub s'
  end.

(** [key in d] for a [str] key. *)
Definition dict_has (key : string) (d : list (pyval * pyval)) : bool :=
  existsb (fun kv => is_str key (fst kv)) d.

(** [d[key]] for a [str] key. *)
Fixpoint dict_get (key : string) (d : list (pyval * pyval)) : option pyval :=
  match d with
  | [] => None
  | (k, v) :: d' => if is_str key k then Some v else dict_get key d'
  end.

(** [d[key] = value]: an existing key keeps its position and gets the
    new value, a new key goes to the end. *)
Fixpoint dict_set (key : string) (value : pyval) (d : list (pyval * pyval))
  : list (pyval * pyval) :=
  match d with
  | [] => [(PStr key, value)]
  | (k, v) :: d' =>
      if is_str key k then (k, value) :: d'
      else (k, v) :: dict_set key value d'
  end.

(** [key in container], [key] a [str]. *)
Definition contains (key : string) (container : pyval) : result bool :=
  match container with
  | PDict d => Ok (dict_has key d)
  | PList l => Ok (existsb (is_str key) l)
  | PStr s => Ok (str_contains key s)
  | PTuple l => Ok (existsb (is_str key) l)
  | PSet l => Ok (existsb (is_str key) l)
  | PBytes _ => Raise (Exn TypeError "a bytes-like object is required, not 'str'")
  | _ => Raise (Exn TypeError
           ("argument of type '" +:+ type_name container +:+ "' is not iterable"))
  end.

(** [container[key] = value], [key] a [str]. *)
Definition setitem (container : pyval) (key : string) (value : pyval)
  : result pyval :=
  match container with
  | PDict d => Ok (PDict (dict_set key value d))
  | PList _ => Raise (Exn TypeError
                 "list indices must be integers or slices, not str")
  | _ => Raise (Exn TypeError
           ("'" +:+ type_name container +:+
            "' object does not support item assignment"))
  end.

End Py.
Export Py.

(** ** [os.path.join] on POSIX, two arguments *)

Module Posix.

Definition starts_with_sep (s : string) : bool :=
  match s with
  | String c _ => Ascii.eqb c "/"
  | EmptyString => false
  end.

Fixpoint ends_with_sep (s : string) : bool :=
  match s with
  | EmptyString => false
  | String c EmptyString => Ascii.eqb c "/"
  | String _ s' => ends_with_sep s'
  end.

Definition os_path_join (a b : string) : string :=
  if starts_with_sep b then b
  else if String.eqb a "" || ends_with_sep a then a +:+ b
  else a +:+ "/" +:+ b.

Fixpoint last_char (s : string) : option ascii :=
  match s with
  | EmptyString => None
  | String c EmptyString => Some c
  | String _ s' => last_char s'
  end.

(** The path without trailing separators. *)
Fixpoint bare (s : string) : string :=
  match s with
  | EmptyString => EmptyString
  | String c s' =>
      match bare s' with
      | EmptyString => if Ascii.eqb c "/" then EmptyString else String c EmptyString
      | r => String c r
      end
  end.

Fixpoint ancestors_from (prefix rest : string) : list string :=
  match rest with
  | EmptyString => []
  | String c rest' =>
      (if Ascii.eqb c "/" && negb (String.eqb prefix "")
          && negb (ends_with_sep prefix)
       then [prefix] else [])
      ++ ancestors_from (prefix +:+ String c EmptyString) rest'
  end.

(** The directories a path goes through, outermost first:
    [a] and [a/b] for [a/b/c]. *)
Definition ancestors (path : string) : list string := ancestors_from "" path.

End Posix.
Export Posix.

Arguments os_path_join : simpl never.

(** ** The process state and the calls made to the outside *)

Inductive level : Type := INFO | ERROR.

Inductive event : Type :=
| EvMakedirs (path : string)
| EvOpenRead (path : string)
| EvSafeLoad (text : string)
| EvGetTemplate (name : string)
| EvOpenWrite (path : string)
| EvWrite (path : string) (content : string)
| EvSystem (cmd : string)
| EvLog (lv : level) (msg : string).

Record world : Type := World {
  files : gmap string string;
  dirs : gset string;
  environ : gmap string string;
  trace : list event
}.

Definition set_files (f : gmap string string → gmap string string) (w : world) : world :=
  {| files := f (files w); dirs := dirs w; environ := environ w; trace := trace w |}.

Definition set_dirs (f : gset string → gset string) (w : world) : world :=
  {| files := files w; dirs := f (dirs w); environ := environ w; trace := trace w |}.

Definition record (ev : event) (w : world) : world :=
  {| files := files w; dirs := dirs w; environ := environ w;
     trace := trace w ++ [ev] |}.

(** ** State and exceptions *)

Definition M (A : Type) : Type := world → result A * world.

Definition ret {A} (a : A) : M A := fun w => (Ok a, w).

Definition raise {A} (e : exn) : M A := fun w => (Raise e, w).

Definition bind {A B} (m : M A) (k : A → M B) : M B :=
  fun w =>
    match m w with
    | (Ok a, w') => k a w'
    | (Raise e, w') => (Raise e, w')
    end.

Notation "x <- m ;; k" := (bind m (fun x => k))
  (at level 100, m at next level, right associativity).
Notation "m ;; k" := (bind m (fun _ => k))
  (at level 100, right associativity).

Definition lift {A} (r : result A) : M A := fun w => (r, w).

Definition emit (ev : event) : M unit := fun w => (Ok tt, record ev w).

(** [try: body / except Exception as e: handler e]. *)
Definition try_except {A} (body : M A) (handler : exn → M A) : M A :=
  fun w =>
    match body w with
    | (Ok a, w') => (Ok a, w')
    | (Raise e, w') => handler e w'
    end.

Definition logging_info (msg : string) : M unit := emit (EvLog INFO msg).
Definition logging_error (msg : string) : M unit := emit (EvLog ERROR msg).

(** [for x in l: body x]. *)
Fixpoint for_each {A} (body : A → M unit) (l : list A) : M unit :=
  match l with
  | [] => ret tt
  | x :: l' => body x ;; for_each body l'
  end.

(** ** The collaborators

    The YAML library, the template engine and the operating system, as the
    program calls them. *)

Class Externals : Type := {
  (** [yaml.safe_load] on the text of a document. *)
  yaml_safe_load : string → result pyval;
  (** [yaml.dump(_, default_flow_style=False)]: the text it writes. *)
  yaml_dump : pyval → string;
  (** Jinja2 on a template source and a context: compile and render.
      A template that includes or extends another file, or that draws on
      the engine's random filters and globals, is not described by this
      interface. *)
  jinja_render : string → pyval → result string;
  (** The error, if any, with which [open(path, 'w')] is refused; fixed
      for the length of one run. *)
  open_w_fault : string → option exn;
  (** The status [os.system] returns for a command line. *)
  os_system : string → Z
}.

(** ** The program *)

Record EnvReader : Type := { env_file : string }.

Record TemplateRenderer : Type := { template_dir : string }.

Record KubernetesManifestGenerator : Type := {
  env_reader : EnvReader;
  template_renderer : TemplateRenderer;
  output_dir : string
}.

Record App : Type := { k8s_generator : KubernetesManifestGenerator }.

(** The dict literal of [generate_yaml_files], in insertion order:
    output file name, template name. *)
Definition templates : list (string * string) :=
  [ ("service.yaml", "service.yaml.j2");
    ("ingress.yaml", "ingress.yaml.j2");
    ("deploy.yaml", "deploy.yaml.j2");
    ("hpa.yaml", "hpa.yaml.j2") ].

Definition ENV_FILE : string := "values.yaml".
Definition TEMPLATE_DIR : string := "templates".
Definition OUTPUT_DIR : string := "output".

Definition is_FileNotFoundError (e : exn) : bool :=
  match exn_kind e with FileNotFoundError => true | _ => false end.

Definition no_such_file (path : string) : exn :=
  Exn FileNotFoundError ("[Errno 2] No such file or directory: '" +:+ path +:+ "'").

Definition is_a_directory (path : string) : exn :=
  Exn IsADirectoryError ("[Errno 21] Is a directory: '" +:+ path +:+ "'").

Definition not_a_directory (path : string) : exn :=
  Exn NotADirectoryError ("[Errno 20] Not a directory: '" +:+ path +:+ "'").

Definition file_exists (path : string) : exn :=
  Exn FileExistsError ("[Errno 17] File exists: '" +:+ path +:+ "'").

(** A directory on the way to [path] is a regular file. *)
Definition through_file (fs : gmap string string) (path : string) : bool :=
  existsb (fun a => bool_decide (is_Some (fs !! a))) (ancestors path).

(** The error of [open(path, 'r')] when no regular file is at [path]: a
    component of the path is a regular file, or the path is a directory, or
    nothing is there. *)
Definition open_r_error (fs : gmap string string) (ds : gset string)
    (path : string) : exn :=
  if through_file fs path then not_a_directory path
  else if bool_decide (bare path ∈ ds) then is_a_directory path
  else no_such_file path.

(** [open(path, 'r')] followed by reading the whole file. *)
Definition open_r (path : string) : M string :=
  emit (EvOpenRead path) ;;
  fun w =>
    match files w !! path with
    | Some text => (Ok text, w)
    | None => (Raise (open_r_error (files w) (dirs w) path), w)
    end.

(** The [mkdir] calls of [os.makedirs], outermost directory first; each
    entry is a path and the name [mkdir] is called with.  A directory that
    is there is left alone; below a regular file [mkdir] fails; a regular
    file at the last path is in the way. *)
Fixpoint mkdir_chain (fs : gmap string string) (chain : list (string * string))
    (ds : gset string) : result unit * gset string :=
  match chain with
  | [] => (Ok tt, ds)
  | (p, name) :: rest =>
      match fs !! p with
      | Some _ =>
          (Raise (match rest with
                  | (_, name') :: _ => not_a_directory name'
                  | [] => file_exists name
                  end), ds)
      | None => mkdir_chain fs rest ({[p]} ∪ ds)
      end
  end.


(** [os.makedirs(path, exist_ok=True)]. *)
Definition os_makedirs (path : string) : M unit :=
  emit (EvMakedirs path) ;;
  fun w =>
    if String.eqb path "" then (Raise (no_such_file path), w)
    else match files w !! path with
         | Some _ => (Raise (file_exists path), w)
         | None =>
             let chain :=
               map (fun a => (a, a)) (ancestors (bare path))
               ++ [(bare path, path)] in
             let '(r, ds) := mkdir_chain (files w) chain (dirs w) in
             (r, set_dirs (fun _ => ds) w)
         end.

Definition os_environ_items : M (list (string * string)) :=
  fun w => (Ok (map_to_list (environ w)), w).

(** The loop of [EnvReader.read]:
    [for key, value in os.environ.items(): if key in context: context[key] = value]. *)
Fixpoint overwrite (items : list (string * string)) (context : pyval)
  : result pyval :=
  match items with
  | [] => Ok context
  | (key, value) :: items' =>
      match contains key context with
      | Raise e => Raise e
      | Ok false => overwrite items' context
      | Ok true =>
          match setitem context key (PStr value) with
          | Raise e => Raise e
          | Ok context' => overwrite items' context'
          end
      end
  end.

(** One turn of that loop on a [dict]. *)
Definition overwrite_step (d : list (pyval * pyval)) (item : string * string)
  : list (pyval * pyval) :=
  if dict_has (fst item) d then dict_set (fst item) (PStr (snd item)) d else d.

Section Program.
Context `{!Externals}.

Definition safe_load (text : string) : M pyval :=
  emit (EvSafeLoad text) ;; lift (yaml_safe_load text).

(** [EnvReader.read] *)
Definition EnvReader_read (self : EnvReader) : M pyval :=
  context <-
    try_except
      (text <- open_r (env_file self) ;; safe_load text)
      (fun e =>
         if is_FileNotFoundError e then
           logging_error ("Environment file '" +:+ env_file self +:+ "' not found.") ;;
           raise e
         else
           logging_error ("Error reading environment variables: " +:+ exn_str e) ;;
           raise e) ;;
  items <- os_environ_items ;;
  lift (overwrite items context).

(** [Environment.get_template] with a [FileSystemLoader] on the
    template directory: the source of the template. *)
Definition get_template (self : TemplateRenderer) (template_name : string)
  : M string :=
  emit (EvGetTemplate template_name) ;;
  fun w =>
    match files w !! os_path_join (template_dir self) template_name with
    | Some source => (Ok source, w)
    | None => (Raise (Exn TemplateNotFound template_name), w)
    end.

(** [TemplateRenderer.render] *)
Definition TemplateRenderer_render (self : TemplateRenderer)
    (template_name : string) (context : pyval) : M string :=
  try_except
    (source <- get_template self template_name ;;
     lift (jinja_render source context))
    (fun e =>
       logging_error ("Error rendering template '" +:+ template_name +:+ "': "
                      +:+ exn_str e) ;;
       raise e).

(** [open(path, 'w')]: the file is created or truncated. *)
Definition open_w (path : string) : M unit :=
  emit (EvOpenWrite path) ;;
  fun w =>
    match open_w_fault path with
    | Some e => (Raise e, w)
    | None => (Ok tt, set_files (fun fs => <[path := ""]> fs) w)
    end.

(** [yaml.dump(value, file, default_flow_style=False)] on an open file. *)
Definition dump_to (path : string) (value : pyval) : M unit :=
  emit (EvWrite path (yaml_dump value)) ;;
  fun w => (Ok tt, set_files (fun fs => <[path := yaml_dump value]> fs) w).

(** [KubernetesManifestGenerator.write_yaml] *)
Definition write_yaml (self : KubernetesManifestGenerator)
    (file_path data : string) : M unit :=
  try_except
    (open_w file_path ;;
     value <- safe_load data ;;
     dump_to file_path value)
    (fun e =>
       logging_error ("Error writing YAML to file '" +:+ file_path +:+ "': "
                      +:+ exn_str e) ;;
       raise e).

(** The body of the loop of [generate_yaml_files] for one binding. *)
Definition generate_one (self : KubernetesManifestGenerator) (context : pyval)
    (binding : string * string) : M unit :=
  let '(file_name, template_name) := binding in
  try_except
    (rendered_yaml <-
       TemplateRenderer_render (template_renderer self) template_name context ;;
     let output_file_path := os_path_join (output_dir self) file_name in
     write_yaml self output_file_path rendered_yaml ;;
     logging_info ("Generated " +:+ output_file_path))
    (fun e =>
       logging_error ("Error generating YAML file for " +:+ file_name +:+ ": "
                      +:+ exn_str e) ;;
       raise e).

(** [KubernetesManifestGenerator.generate_yaml_files] *)
Definition generate_yaml_files (self : KubernetesManifestGenerator)
    (context : pyval) : M unit :=
  for_each (generate_one self context) templates.

(** [KubernetesManifestGenerator.apply_kubernetes_manifests]: the value
    of [os.system] is dropped. *)
Definition apply_kubernetes_manifests (self : KubernetesManifestGenerator)
  : M unit :=
  try_except
    (let cmd := "kubectl apply -f " +:+ output_dir self +:+ "/" in
     emit (EvSystem cmd) ;;
     let _status := os_system cmd in
     logging_info ("Applied Kubernetes resources from " +:+ output_dir self))
    (fun e =>
       logging_error ("Error applying Kubernetes manifests: " +:+ exn_str e) ;;
       raise e).

(** [KubernetesManifestGenerator.__init__] *)
Definition KubernetesManifestGenerator_init
    (env_file template_dir output_dir : string)
  : M KubernetesManifestGenerator :=
  let self := {| env_reader := {| env_file := env_file |};
                 template_renderer := {| template_dir := template_dir |};
                 output_dir := output_dir |} in
  os_makedirs output_dir ;;
  ret self.

(** [App.__init__] *)
Definition App_init (env_file template_dir output_dir : string) : M App :=
  g <- KubernetesManifestGenerator_init env_file template_dir output_dir ;;
  ret {| k8s_generator := g |}.

(** [App.run]; the apply step is commented out in the source. *)
Definition App_run (self : App) : M unit :=
  try_except
    (logging_info "Starting application..." ;;
     context <- EnvReader_read (env_reader (k8s_generator self)) ;;
     generate_yaml_files (k8s_generator self) context ;;
     logging_info "Application completed successfully.")
    (fun e =>
       logging_error ("An error occurred: " +:+ exn_str e) ;;
       raise e).

(** The [__main__] block. *)
Definition main : M unit :=
  app <- App_init ENV_FILE TEMPLATE_DIR OUTPUT_DIR ;;
  App_run app.

End Program.

(** ** Reading a trace *)

Definition rendered (evs : list event) : list string :=
  omap (fun ev => match ev with EvGetTemplate n => Some n | _ => None end) evs.

Definition opened_r (evs : list event) : list string :=
  omap (fun ev => match ev with EvOpenRead p => Some p | _ => None end) evs.

Definition opened_w (evs : list event) : list string :=
  omap (fun ev => match ev with EvOpenWrite p => Some p | _ => None end) evs.

Definition parsed (evs : list event) : list string :=
  omap (fun ev => match ev with EvSafeLoad t => Some t | _ => None end) evs.

Definition written (evs : list event) : list (string * string) :=
  omap (fun ev => match ev with EvWrite p c => Some (p, c) | _ => None end) evs.

Definition commands (evs : list event) : list string :=
  omap (fun ev => match ev with EvSystem c => Some c | _ => None end) evs.

Section Outcomes.
Context `{!Externals}.

Definition template_path (tr : TemplateRenderer) (template_name : string) : string :=
  os_path_join (template_dir tr) template_name.

Definition output_path (self : KubernetesManifestGenerator)
    (binding : string * string) : string :=
  os_path_join (output_dir self) (fst binding).

(** What rendering a template returns, from the files it is run on. *)
Definition render_result (fs : gmap string string) (tr : TemplateRenderer)
    (template_name : string) (context : pyval) : result string :=
  match fs !! template_path tr template_name with
  | Some source => jinja_render source context
  | None => Raise (Exn TemplateNotFound template_name)
  end.

(** What [write_yaml] leaves in the file: the serialization of the
    parse of [data]. *)
Definition written_text (file_path data : string) : result string :=
  match open_w_fault file_path with
  | Some e => Raise e
  | None =>
      match yaml_safe_load data with
      | Raise e => Raise e
      | Ok value => Ok (yaml_dump value)
      end
  end.

(** The output artifact of one binding: render, then write. *)
Definition artifact (self : KubernetesManifestGenerator)
    (fs : gmap string string) (context : pyval) (binding : string * string)
  : result string :=
  match render_result fs (template_renderer self) (snd binding) context with
  | Raise e => Raise e
  | Ok text => written_text (output_path self binding) text
  end.

(** The first exception in a sequence of outcomes. *)
Fixpoint first_raise {A} (rs : list (result A)) : result unit :=
  match rs with
  | [] => Ok tt
  | Ok _ :: rs' => first_raise rs'
  | Raise e :: _ => Raise e
  end.

(** The results before the first exception. *)
Fixpoint ok_prefix {A} (rs : list (result A)) : list A :=
  match rs with
  | Ok a :: rs' => a :: ok_prefix rs'
  | _ => []
  end.

(** No output file of the bindings is the source of one of their
    templates. *)
Definition separated (self : KubernetesManifestGenerator)
    (bs : list (string * string)) : Prop :=
  ∀ b b', b ∈ bs → b' ∈ bs →
    output_path self b ≠ template_path (template_renderer self) (snd b').

(** What [EnvReader.read] returns, from the files, the directories and
    the environment. *)
Definition read_result (self : EnvReader) (fs : gmap string string)
    (ds : gset string) (env : gmap string string) : result pyval :=
  match fs !! env_file self with
  | None => Raise (open_r_error fs ds (env_file self))
  | Some text =>
      match yaml_safe_load text with
      | Raise e => Raise e
      | Ok context => overwrite (map_to_list env) context
      end
  end.

(** What [App.run] returns: the reader's exception, or else the first
    exception among the bindings. *)
Definition run_result (self : App) (fs : gmap string string)
    (ds : gset string) (env : gmap string string) : result unit :=
  match read_result (env_reader (k8s_generator self)) fs ds env with
  | Raise e => Raise e
  | Ok context =>
      first_raise (map (artifact (k8s_generator self) fs context) templates)
  end.

End Outcomes.

(** ** A small stand-in for the collaborators

    Enough of PyYAML and Jinja2 to run the program on example inputs: the
    parser knows the documents of the examples, reads a one-line
    [key: value] document as a one-entry mapping and any other text as a
    plain scalar, and rejects an unbalanced brace; the serializer prints
    in flow style; the engine knows one template with a placeholder and
    renders a template without tags as it stands. *)

Module Demo.

Definition values_text : string := "{replicaCount: 3, image: app:v1}".

Definition values_doc : pyval :=
  PDict [ (PStr "replicaCount", PInt 3); (PStr "image", PStr "app:v1") ].

Definition yaml_error : exn :=
  Exn YAMLError "while parsing a flow node: expected the node content, but found '<stream end>'".

Fixpoint split_colon (s : string) : option (string * string) :=
  match s with
  | EmptyString => None
  | String c s' =>
      if String.prefix ": " s then Some ("", String.substring 2 (String.length s) s)
      else match split_colon s' with
           | Some (k, v) => Some (String c k, v)
           | None => None
           end
  end.

Definition safe_load (text : string) : result pyval :=
  if String.eqb text "{" then Raise yaml_error
  else if String.eqb text "" then Ok PNone
  else if String.eqb text "null" then Ok PNone
  else if String.eqb text values_text then Ok values_doc
  else if String.eqb text "[a, b]" then Ok (PList [PStr "a"; PStr "b"])
  else match split_colon text with
       | Some (k, v) => Ok (PDict [(PStr k, PStr v)])
       | None => Ok (PStr text)
       end.

Fixpoint dump (v : pyval) : string :=
  match v with
  | PNone => "null"
  | PBool true => "true"
  | PBool false => "false"
  | PInt z => "!!int " +:+ pretty z
  | PFloat bits => "!!float " +:+ pretty bits
  | PStr s => if String.eqb s "{" then "'{'" else s
  | PList l =>
      "[" +:+ (fix go (l : list pyval) : string :=
                 match l with
                 | [] => "]"
                 | x :: l' => dump x +:+ ", " +:+ go l'
                 end) l
  | PDict d =>
      match d with
      | [(PStr k, PStr x)] => k +:+ ": " +:+ x
      | _ =>
          "{" +:+ (fix go (d : list (pyval * pyval)) : string :=
                     match d with
                     | [] => "}"
                     | (k, x) :: d' => dump k +:+ ": " +:+ dump x +:+ ", " +:+ go d'
                     end) d
      end
  | PTuple l =>
      "!!python/tuple [" +:+ (fix go (l : list pyval) : string :=
                                match l with
                                | [] => "]"
                                | x :: l' => dump x +:+ ", " +:+ go l'
                                end) l
  | PSet l =>
      "!!set {" +:+ (fix go (l : list pyval) : string :=
                       match l with
                       | [] => "}"
                       | x :: l' => dump x +:+ ": null, " +:+ go l'
                       end) l
  | PBytes data => "!!binary " +:+ data
  | PDate iso => iso
  | PDateTime iso => iso
  end.

Definition render (source : string) (context : pyval) : result string :=
  match context with
  | PDict d =>
      if str_contains "{%" source then
        Raise (Exn TemplateError "Encountered unknown tag.")
      else if String.eqb source "image: {{ image }}" then
        match dict_get "image" d with
        | Some (PStr s) => Ok ("image: " +:+ s)
        | _ => Ok "image: "
        end
      else Ok source
  | _ =>
      Raise (Exn TypeError
               ("'" +:+ type_name context +:+ "' object is not iterable"))
  end.

(** Every path can be opened for writing, and the command exits with
    status 1 (the value [os.system] then returns is 256). *)
Definition lib : Externals :=
  {| yaml_safe_load := safe_load;
     yaml_dump := dump;
     jinja_render := render;
     open_w_fault := fun _ => None;
     os_system := fun _ => 256%Z |}.

(** The same, with the output file of the deployment read-only. *)
Definition lib_readonly_deploy : Externals :=
  {| yaml_safe_load := safe_load;
     yaml_dump := dump;
     jinja_render := render;
     open_w_fault := fun path =>
       if String.eqb path "output/deploy.yaml" then
         Some (Exn OSError "[Errno 13] Permission denied: 'output/deploy.yaml'")
       else None;
     os_system := fun _ => 0%Z |}.

Definition template_files : gmap string string :=
  {[ "templates/service.yaml.j2" := "kind: Service";
     "templates/ingress.yaml.j2" := "kind: Ingress";
     "templates/deploy.yaml.j2" := "image: {{ image }}";
     "templates/hpa.yaml.j2" := "kind: HorizontalPodAutoscaler" ]}.

Definition env : gmap string string :=
  {[ "image" := "app:v2"; "HOME" := "/root" ]}.

(** A complete checkout: values file and the four templates. *)
Definition w0 : world :=
  {| files := <["values.yaml" := values_text]> template_files;
     dirs := ∅; environ := env; trace := [] |}.


(** The ingress template renders to an unbalanced document. *)
Definition w_bad_ingress : world :=
  {| files := <["templates/ingress.yaml.j2" := "{"]>
                (<["values.yaml" := values_text]> template_files);
     dirs := ∅; environ := env; trace := [] |}.

(** The values file holds a sequence, not a mapping. *)
Definition w_list_values : world :=
  {| files := <["values.yaml" := "[a, b]"]> template_files;
     dirs := ∅; environ := env; trace := [] |}.

(** The values file is empty. *)
Definition w_empty_values : world :=
  {| files := <["values.yaml" := ""]> template_files;
     dirs := ∅; environ := env; trace := [] |}.

Definition app : App :=
  {| k8s_generator :=
       {| env_reader := {| env_file := ENV_FILE |};
          template_renderer := {| template_dir := TEMPLATE_DIR |};
          output_dir := OUTPUT_DIR |} |}.

Definition gen : KubernetesManifestGenerator := k8s_generator app.

(** The context [read] returns on [w0]. *)
Definition context : pyval :=
  PDict [ (PStr "replicaCount", PInt 3); (PStr "image", PStr "app:v2") ].

End Demo.

(** ** Closed forms for the reader *)

(** The values that have neither [__contains__] nor [__iter__]. *)
Definition is_scalar (v : pyval) : bool :=
  match v with
  | PNone | PBool _ | PInt _ | PFloat _ => true
  | _ => false
  end.

(** The document [d] with the value of every [str] key that names an
    environment variable replaced by that variable's string. *)
Definition overlay (env : gmap string string) (d : list (pyval * pyval))
  : list (pyval * pyval) :=
  map (fun kv =>
         match fst kv with
         | PStr k =>
             match env !! k with
             | Some s => (fst kv, PStr s)
             | None => kv
             end
         | _ => kv
         end) d.

(** ** More example inputs, for the same stand-in collaborators *)

Module Cases.

(** The values file holds a plain scalar in which no variable is named. *)
Definition w_plain_scalar : world :=
  {| files := <["values.yaml" := "hello"]> Demo.template_files;
     dirs := ∅; environ := Demo.env; trace := [] |}.

(** The values file holds a plain scalar in which [image] occurs. *)
Definition w_scalar_naming_image : world :=
  {| files := <["values.yaml" := "my image"]> Demo.template_files;
     dirs := ∅; environ := Demo.env; trace := [] |}.

(** The values file holds the sequence [[a, b]] and a variable is called [a]. *)
Definition w_list_naming_a : world :=
  {| files := <["values.yaml" := "[a, b]"]> Demo.template_files;
     dirs := ∅; environ := {[ "a" := "1" ]}; trace := [] |}.

(** The values file is an unbalanced document. *)
Definition w_bad_values : world :=
  {| files := <["values.yaml" := "{"]> Demo.template_files;
     dirs := ∅; environ := Demo.env; trace := [] |}.

(** [output] is a regular file. *)
Definition w_output_is_file : world :=
  {| files := <["output" := "not a directory"]> (files Demo.w0);
     dirs := ∅; environ := Demo.env; trace := [] |}.

(** A previous run left a deployment manifest. *)
Definition w_stale_ingress : world :=
  {| files := <["output/ingress.yaml" := "kind: Old"]> (files Demo.w_bad_ingress);
     dirs := {["output"]}; environ := Demo.env; trace := [] |}.



End Cases.

(** ** The stand-in with ordered pairs

    [yaml.safe_load] builds a list of tuples for a [!!pairs] document,
    [yaml.dump] writes a tuple under the tag [!!python/tuple], and
    [yaml.safe_load] has no constructor for that tag. *)

Module Pairs.

Definition constructor_error : exn :=
  Exn YAMLError
    "could not determine a constructor for the tag 'tag:yaml.org,2002:python/tuple'".

Definition pairs_text : string := "!!pairs [a: 1]".

Definition safe_load (text : string) : result pyval :=
  if str_contains "!!python/" text then Raise constructor_error
  else if String.eqb text pairs_text then
    Ok (PList [PTuple [PStr "a"; PInt 1]])
  else Demo.safe_load text.

Definition lib : Externals :=
  {| yaml_safe_load := safe_load;
     yaml_dump := Demo.dump;
     jinja_render := Demo.render;
     open_w_fault := fun _ => None;
     os_system := fun _ => 0%Z |}.

(** The autoscaler template renders to a document of ordered pairs. *)
Definition w_pairs : world :=
  {| files := <["templates/hpa.yaml.j2" := pairs_text]> (files Demo.w0);
     dirs := ∅; environ := Demo.env; trace := [] |}.

End Pairs.

(** * Properties *)

(** ** Dictionaries *)

Section Dict.
Implicit Types (d : list (pyval * pyval)) (k : string) (v key : pyval).

Lemma is_str_true k key : is_str k key = true ↔ key = PStr k.
Proof.
  destruct key; simpl; try (split; [discriminate | congruence]).
  rewrite String.eqb_eq. split; congruence.
Qed.

Lemma dict_has_keys k d : dict_has k d = existsb (is_str k) (map fst d).
Proof. induction d as [|[k0 v0] d IH]; simpl; [done|]. by rewrite <- IH. Qed.

Lemma dict_set_keys k v d :
  dict_has k d = true → map fst (dict_set k v d) = map fst d.
Proof.
  induction d as [|[k0 v0] d IH]; simpl; [discriminate|].
  destruct (is_str k k0) eqn:E; simpl; [done|].
  intros Hd. by rewrite IH.
Qed.

Lemma dict_get_set_same k v d :
  dict_has k d = true → dict_get k (dict_set k v d) = Some v.
Proof.
  induction d as [|[k0 v0] d IH]; simpl; [discriminate|].
  destruct (is_str k k0) eqn:E; simpl; rewrite E; [done|].
  apply IH.
Qed.

Lemma dict_get_set_other k k' v d :
  k ≠ k' → dict_get k' (dict_set k v d) = dict_get k' d.
Proof.
  intros Hne. induction d as [|[k0 v0] d IH]; simpl.
  - destruct (String.eqb k' k) eqn:E; [|done].
    apply String.eqb_eq in E. congruence.
  - destruct (is_str k k0) eqn:E; simpl; [|by rewrite IH].
    apply is_str_true in E. subst k0. simpl.
    destruct (String.eqb k' k) eqn:E'; [|done].
    apply String.eqb_eq in E'. congruence.
Qed.

Lemma dict_set_lookup_other k v d (i : nat) key val :
  d !! i = Some (key, val) → is_str k key = false →
  dict_set k v d !! i = Some (key, val).
Proof.
  revert i. induction d as [|[k0 v0] d IH]; intros i; simpl; [done|].
  destruct i as [|i]; simpl.
  - intros [= -> ->] ->. done.
  - intros Hi Hk. destruct (is_str k k0); simpl; [done|]. by apply IH.
Qed.

Lemma dict_get_has k d : dict_has k d = true ↔ is_Some (dict_get k d).
Proof.
  induction d as [|[k0 v0] d IH]; simpl.
  - split; [discriminate | by intros [? ?]].
  - destruct (is_str k k0); simpl; [|done]. split; eauto.
Qed.

End Dict.

(** ** The override loop on a mapping *)

Lemma overwrite_dict items d :
  overwrite items (PDict d) = Ok (PDict (fold_left overwrite_step items d)).
Proof.
  revert d. induction items as [|[k v] items IH]; intros d; simpl; [done|].
  unfold overwrite_step at 2. simpl.
  destruct (dict_has k d); apply IH.
Qed.

Lemma overwrite_step_keys d item :
  map fst (overwrite_step d item) = map fst d.
Proof.
  unfold overwrite_step. destruct (dict_has _ d) eqn:E; [|done].
  by apply dict_set_keys.
Qed.

Lemma overwrite_keys items d :
  map fst (fold_left overwrite_step items d) = map fst d.
Proof.
  revert d. induction items as [|item items IH]; intros d; simpl; [done|].
  by rewrite IH, overwrite_step_keys.
Qed.

Lemma overwrite_has items d k :
  dict_has k (fold_left overwrite_step items d) = dict_has k d.
Proof. by rewrite !dict_has_keys, overwrite_keys. Qed.

(** A key the environment does not name keeps its value. *)
Lemma overwrite_get_absent items d k :
  k ∉ items.*1 →
  dict_get k (fold_left overwrite_step items d) = dict_get k d.
Proof.
  revert d. induction items as [|[k0 v0] items IH]; intros d; simpl; [done|].
  intros Hk. apply not_elem_of_cons in Hk as [Hne Hk].
  rewrite IH by done. unfold overwrite_step; simpl.
  destruct (dict_has k0 d); [|done]. by apply dict_get_set_other.
Qed.

(** A key the environment names once, present in the document, ends up
    with the environment's string. *)
Lemma overwrite_get_present items d k v :
  NoDup items.*1 → (k, v) ∈ items → dict_has k d = true →
  dict_get k (fold_left overwrite_step items d) = Some (PStr v).
Proof.
  revert d. induction items as [|[k0 v0] items IH]; intros d; simpl.
  - intros _ Hin. by apply elem_of_nil in Hin.
  - intros Hnd Hin Hd. apply NoDup_cons in Hnd as [Hk0 Hnd].
    apply elem_of_cons in Hin as [[= <- <-]|Hin].
    + rewrite overwrite_get_absent by done.
      unfold overwrite_step; simpl. rewrite Hd. by apply dict_get_set_same.
    + apply IH; [done..|].
      rewrite dict_has_keys, overwrite_step_keys, <- dict_has_keys. done.
Qed.

(** An entry whose key the environment does not name stays where it is. *)
Lemma overwrite_lookup_untouched items d (i : nat) key val :
  d !! i = Some (key, val) →
  (∀ k v, (k, v) ∈ items → is_str k key = false) →
  fold_left overwrite_step items d !! i = Some (key, val).
Proof.
  revert d. induction items as [|[k0 v0] items IH]; intros d; simpl; [done|].
  intros Hi Hk. apply IH.
  - unfold overwrite_step; simpl. destruct (dict_has k0 d); [|done].
    apply dict_set_lookup_other; [done|]. apply (Hk k0 v0). left.
  - intros k v Hin. apply (Hk k v). by right.
Qed.

Section Reader.
Context `{!Externals}.
Implicit Types (self : EnvReader) (w : world).

(** What [read] does when the file is there and parses. *)
Lemma read_parsed self w text context :
  files w !! env_file self = Some text →
  yaml_safe_load text = Ok context →
  EnvReader_read self w =
    (overwrite (map_to_list (environ w)) context,
     record (EvSafeLoad text) (record (EvOpenRead (env_file self)) w)).
Proof.
  intros Hf Hp. unfold EnvReader_read, bind, try_except, open_r, safe_load,
    bind, emit, lift, os_environ_items. simpl. rewrite Hf. simpl. by rewrite Hp.
Qed.

End Reader.

(** ** Paths *)

Section Paths.

Lemma append_nonempty a b : b ≠ "" → a +:+ b ≠ "".
Proof. destruct a; simpl; [done|discriminate]. Qed.

Lemma last_char_app a b : b ≠ "" → last_char (a +:+ b) = last_char b.
Proof.
  intros Hb. induction a as [|c a IH]; simpl; [done|].
  destruct (a +:+ b) eqn:E; [|done].
  by apply (append_nonempty a b) in E.
Qed.

Lemma os_path_join_last a b :
  b ≠ "" → last_char (os_path_join a b) = last_char b.
Proof.
  intros Hb. unfold os_path_join.
  destruct (starts_with_sep b); [done|].
  destruct (_ || _).
  - by apply last_char_app.
  - rewrite last_char_app by discriminate.
    simpl. by destruct b.
Qed.

Lemma os_path_join_plain a b :
  a ≠ "" → ends_with_sep a = false → starts_with_sep b = false →
  os_path_join a b = a +:+ "/" +:+ b.
Proof.
  unfold os_path_join. intros Ha%String.eqb_neq -> ->. by rewrite Ha.
Qed.

Lemma os_path_join_inj a b1 b2 :
  starts_with_sep b1 = false → starts_with_sep b2 = false →
  os_path_join a b1 = os_path_join a b2 → b1 = b2.
Proof.
  unfold os_path_join. intros -> ->.
  destruct (_ || _); intros Heq.
  - by apply (inj (String.append a)) in Heq.
  - apply (inj (String.append a)) in Heq. by injection Heq.
Qed.

End Paths.

(** ** Traces *)

Lemma rendered_app evs1 evs2 : rendered (evs1 ++ evs2) = rendered evs1 ++ rendered evs2.
Proof. apply omap_app. Qed.
Lemma opened_r_app evs1 evs2 : opened_r (evs1 ++ evs2) = opened_r evs1 ++ opened_r evs2.
Proof. apply omap_app. Qed.
Lemma opened_w_app evs1 evs2 : opened_w (evs1 ++ evs2) = opened_w evs1 ++ opened_w evs2.
Proof. apply omap_app. Qed.
Lemma parsed_app evs1 evs2 : parsed (evs1 ++ evs2) = parsed evs1 ++ parsed evs2.
Proof. apply omap_app. Qed.
Lemma written_app evs1 evs2 : written (evs1 ++ evs2) = written evs1 ++ written evs2.
Proof. apply omap_app. Qed.
Lemma commands_app evs1 evs2 : commands (evs1 ++ evs2) = commands evs1 ++ commands evs2.
Proof. apply omap_app. Qed.

(** ** The monad *)

Ltac unfold_m :=
  unfold bind, try_except, logging_error, logging_info;
  unfold emit, lift, raise, ret;
  unfold record, set_files, set_dirs.

Lemma for_each_app {A} (body : A → M unit) l1 l2 w :
  for_each body (l1 ++ l2) w =
    match for_each body l1 w with
    | (Ok _, w') => for_each body l2 w'
    | (Raise e, w') => (Raise e, w')
    end.
Proof.
  revert w. induction l1 as [|x l1 IH]; intros w; simpl; [done|].
  unfold bind. destruct (body x w) as [[[]|e] w1]; [apply IH|done].
Qed.

Section Generator.
Context `{!Externals}.
Implicit Types (self : KubernetesManifestGenerator) (w : world)
  (b : string * string) (context : pyval).

(** *** [TemplateRenderer.render] *)

Lemma render_run (tr : TemplateRenderer) name context w :
  ∃ evs,
    TemplateRenderer_render tr name context w =
      (render_result (files w) tr name context,
       {| files := files w; dirs := dirs w; environ := environ w;
          trace := trace w ++ EvGetTemplate name :: evs |})
    ∧ rendered evs = [] ∧ opened_w evs = [] ∧ written evs = []
    ∧ opened_r evs = [] ∧ commands evs = [] ∧ parsed evs = [].
Proof.
  unfold TemplateRenderer_render, get_template, render_result, template_path.
  unfold_m. simpl.
  destruct (files w !! _) as [source|]; simpl.
  - destruct (jinja_render source context) as [text|e]; simpl.
    + by exists [].
    + eexists [_]. by rewrite <- app_assoc.
  - eexists [_]. by rewrite <- app_assoc.
Qed.

(** *** [write_yaml] *)

Lemma write_yaml_run self path data w :
  ∃ fs' evs,
    write_yaml self path data w =
      (match written_text path data with Ok _ => Ok tt | Raise e => Raise e end,
       {| files := fs'; dirs := dirs w; environ := environ w;
          trace := trace w ++ EvOpenWrite path :: evs |})
    ∧ match written_text path data with
      | Ok content =>
          fs' = <[path := content]> (files w) ∧ written evs = [(path, content)]
      | Raise _ =>
          (fs' = files w ∨ fs' = <[path := ""]> (files w)) ∧ written evs = []
      end
    ∧ rendered evs = [] ∧ opened_w evs = [] ∧ opened_r evs = []
    ∧ commands evs = [] ∧ length (parsed evs) ≤ 1.
Proof.
  unfold write_yaml, open_w, safe_load, dump_to, written_text.
  unfold_m. simpl.
  destruct (open_w_fault path) as [e|]; simpl.
  - eexists _, [_]. rewrite <- app_assoc. split; [done|]. simpl. auto 10.
  - destruct (yaml_safe_load data) as [value|e]; simpl.
    + eexists _, [_; _]. rewrite <- !app_assoc. split; [done|]. simpl.
      split_and!; try done. by rewrite insert_insert_eq.
    + eexists _, [_; _]. rewrite <- !app_assoc. split; [done|]. simpl. auto 10.
Qed.

(** *** One binding *)

Lemma generate_one_run self context b w :
  ∃ fs' evs,
    generate_one self context b w =
      (match artifact self (files w) context b with
       | Ok _ => Ok tt
       | Raise e => Raise e
       end,
       {| files := fs'; dirs := dirs w; environ := environ w;
          trace := trace w ++ evs |})
    ∧ rendered evs = [snd b] ∧ opened_r evs = [] ∧ commands evs = []
    ∧ length (parsed evs) ≤ length (opened_w evs)
    ∧ match artifact self (files w) context b with
      | Ok content =>
          fs' = <[output_path self b := content]> (files w)
          ∧ written evs = [(output_path self b, content)]
          ∧ opened_w evs = [output_path self b]
      | Raise _ =>
          (fs' = files w ∨ fs' = <[output_path self b := ""]> (files w))
          ∧ written evs = []
          ∧ (opened_w evs = [] ∨ opened_w evs = [output_path self b])
      end.
Proof.
  destruct b as [file_name template_name].
  unfold generate_one, artifact, output_path. simpl.
  unfold try_except at 1. unfold bind at 1.
  destruct (render_run (template_renderer self) template_name context w)
    as (evs_r & -> & Hr1 & Hr2 & Hr3 & Hr4 & Hr5 & Hr6).
  destruct (render_result _ _ _ _) as [text|e].
  - unfold bind at 1.
    match goal with |- context [write_yaml self ?p ?d ?w1] =>
      destruct (write_yaml_run self p d w1)
        as (fs' & evs_w & -> & Hw & Hw1 & Hw2 & Hw3 & Hw4 & Hw5)
    end. simpl in *.
    destruct (written_text _ text) as [content|e].
    + destruct Hw as [-> Hw]. unfold_m. simpl.
      eexists _, (_ :: evs_r ++ _ :: evs_w ++ [_]).
      split; [by rewrite <- !app_assoc|].
      simpl. rewrite rendered_app, opened_r_app, commands_app, written_app,
        opened_w_app, parsed_app. simpl.
      rewrite rendered_app, opened_r_app, commands_app, written_app,
        opened_w_app, parsed_app. simpl.
      rewrite Hr1, Hr2, Hr3, Hr4, Hr5, Hr6, Hw1, Hw2, Hw3, Hw4, Hw. simpl.
      rewrite app_nil_r. done.
    + destruct Hw as [Hfs Hw]. unfold_m. simpl.
      eexists _, (_ :: evs_r ++ _ :: evs_w ++ [_]).
      split; [by rewrite <- !app_assoc|].
      simpl. rewrite rendered_app, opened_r_app, commands_app, written_app,
        opened_w_app, parsed_app. simpl.
      rewrite rendered_app, opened_r_app, commands_app, written_app,
        opened_w_app, parsed_app. simpl.
      rewrite Hr1, Hr2, Hr3, Hr4, Hr5, Hr6, Hw1, Hw2, Hw3, Hw4, Hw. simpl.
      rewrite app_nil_r. auto 10.
  - unfold_m. simpl.
    eexists _, (_ :: evs_r ++ [_]).
    split; [by rewrite <- !app_assoc|].
    simpl. rewrite rendered_app, opened_r_app, commands_app, written_app,
      opened_w_app, parsed_app. simpl.
    rewrite Hr1, Hr2, Hr3, Hr4, Hr5, Hr6. simpl. auto 10.
Qed.

(** *** The loop over the bindings *)

Lemma artifact_frame self fs fs' context b :
  fs' !! template_path (template_renderer self) (snd b)
    = fs !! template_path (template_renderer self) (snd b) →
  artifact self fs' context b = artifact self fs context b.
Proof. unfold artifact, render_result. by intros ->. Qed.

Lemma loop_run self context bs : ∀ w,
  separated self bs → NoDup (map (output_path self) bs) →
  ∃ fs' evs,
    let rs := map (artifact self (files w) context) bs in
    let n := S (length (ok_prefix rs)) in
    for_each (generate_one self context) bs w =
      (first_raise rs,
       {| files := fs'; dirs := dirs w; environ := environ w;
          trace := trace w ++ evs |})
    ∧ opened_r evs = [] ∧ commands evs = []
    ∧ length (parsed evs) ≤ length (opened_w evs)
    ∧ rendered evs = take n (map snd bs)
    ∧ written evs = zip (map (output_path self) bs) (ok_prefix rs)
    ∧ (opened_w evs = take (length (ok_prefix rs)) (map (output_path self) bs)
       ∨ opened_w evs = take n (map (output_path self) bs))
    ∧ (∀ p, p ∉ take n (map (output_path self) bs) → fs' !! p = files w !! p)
    ∧ (∀ (i : nat) b c, bs !! i = Some b → ok_prefix rs !! i = Some c →
         fs' !! output_path self b = Some c).
Proof.
  induction bs as [|b bs IH]; intros w Hsep Hnd.
  - exists (files w), []. simpl. unfold ret. rewrite app_nil_r.
    destruct w; simpl. split_and!; auto. intros i b c Hi. done.
  - cbn [for_each map]. unfold bind at 1.
    destruct (generate_one_run self context b w)
      as (fs1 & evs1 & -> & Hr & Hor & Hc & Hpa & Hart).
    cbn [map] in Hnd. apply NoDup_cons in Hnd as [Hb Hnd].
    destruct (artifact self (files w) context b) as [content|e] eqn:Ea.
    + destruct Hart as (-> & Hw & How).
      assert (Hsep' : separated self bs).
      { intros x y Hx Hy. apply Hsep; by right. }
      destruct (IH {| files := <[output_path self b := content]> (files w);
                      dirs := dirs w; environ := environ w;
                      trace := trace w ++ evs1 |} Hsep' Hnd)
        as (fs' & evs & Hrun & Hor' & Hc' & Hpa' & Hr' & Hw' & How' & Hframe & Hfiles).
      simpl in *.
      assert (Hrs : map (artifact self (<[output_path self b := content]> (files w)) context) bs
                    = map (artifact self (files w) context) bs).
      { apply map_ext_in. intros b' Hb'. apply artifact_frame.
        apply lookup_insert_ne. apply Hsep; [left|right].
        by apply list_elem_of_In. }
      rewrite Hrs in *. clear Hrs.
      exists fs', (evs1 ++ evs). rewrite Hrun, <- app_assoc.
      rewrite opened_r_app, commands_app, rendered_app, written_app,
        opened_w_app, parsed_app, !length_app, Hor, Hor', Hc, Hc', Hr, Hr',
        Hw, Hw'. simpl.
      split_and!; try done.
      * lia.
      * rewrite How. destruct How' as [-> | ->]; auto.
      * intros p Hp. apply not_elem_of_cons in Hp as [Hne Hp].
        rewrite Hframe by done. by apply lookup_insert_ne.
      * intros [|i] b' c; simpl.
        -- intros [= <-] [= <-]. rewrite Hframe.
           ++ apply lookup_insert_eq.
           ++ intros Hin. apply Hb. eapply subseteq_take, Hin.
        -- apply Hfiles.
    + destruct Hart as (Hfs & Hw & How).
      exists fs1, evs1. simpl.
      rewrite Hor, Hc, Hr, Hw, take_0. split_and!; try done.
      intros p [Hp _]%not_elem_of_cons.
      destruct Hfs as [-> | ->]; [done|].
      by apply lookup_insert_ne.
Qed.

End Generator.

(** ** Sequences of outcomes *)

Lemma map_fmap {A B} (f : A → B) (l : list A) : map f l = f <$> l.
Proof. induction l as [|x l IH]; simpl; [done|]. by rewrite IH. Qed.

Lemma NoDup_not_in_take {A} (l : list A) (j n : nat) x :
  NoDup l → l !! j = Some x → n ≤ j → x ∉ take n l.
Proof.
  intros Hnd Hj Hn (k & Hk & Hlt)%elem_of_take.
  pose proof (NoDup_lookup l k j x Hnd Hk Hj). lia.
Qed.

Section FirstRaise.
Context {A : Type}.
Implicit Types (rs : list (result A)).

Lemma first_raise_ok rs :
  first_raise rs = Ok tt → rs = map Ok (ok_prefix rs).
Proof.
  induction rs as [|[a|e] rs IH]; simpl; [done| |discriminate].
  intros Hrs. by rewrite <- IH.
Qed.

Lemma first_raise_raise rs e :
  first_raise rs = Raise e → rs !! length (ok_prefix rs) = Some (Raise e).
Proof.
  induction rs as [|[a|e'] rs IH]; simpl; [discriminate|done|congruence].
Qed.

(** The outcome of index [i] is an exception and all before it are
    results: that exception is the first one. *)
Lemma first_raise_at rs (i : nat) e :
  rs !! i = Some (Raise e) →
  (∀ (j : nat) r, j < i → rs !! j = Some r → is_ok r = true) →
  first_raise rs = Raise e
  ∧ length (ok_prefix rs) = i
  ∧ (∀ (j : nat) a, j < i → rs !! j = Some (Ok a) → ok_prefix rs !! j = Some a).
Proof.
  revert i. induction rs as [|r rs IH]; intros i Hi Hok; [done|].
  destruct i as [|i]; simpl in *.
  - injection Hi as ->. split_and!; [done..|]. intros; lia.
  - destruct r as [a|e'].
    + destruct (IH i Hi) as (H1 & H2 & H3).
      { intros j r Hj. apply (Hok (S j)). lia. }
      simpl. split_and!; [done|by rewrite H2|].
      intros [|j] a'; simpl; [congruence|]. intros Hj. apply H3. lia.
    + by specialize (Hok 0 (Raise e') ltac:(lia) eq_refl).
Qed.

End FirstRaise.

(** ** The four bindings *)

Section Bindings.
Context `{!Externals}.
Implicit Types (self : KubernetesManifestGenerator).

Lemma templates_cases (b : string * string) :
  b ∈ templates →
  b = ("service.yaml", "service.yaml.j2") ∨ b = ("ingress.yaml", "ingress.yaml.j2")
  ∨ b = ("deploy.yaml", "deploy.yaml.j2") ∨ b = ("hpa.yaml", "hpa.yaml.j2").
Proof.
  unfold templates. rewrite !elem_of_cons, elem_of_nil. tauto.
Qed.

Lemma templates_separated self : separated self templates.
Proof.
  intros b b' Hb Hb' Heq. apply (f_equal last_char) in Heq.
  unfold output_path, template_path in Heq.
  apply templates_cases in Hb, Hb'.
  destruct Hb as [-> | [-> | [-> | ->]]], Hb' as [-> | [-> | [-> | ->]]];
    rewrite !os_path_join_last in Heq by discriminate; discriminate.
Qed.

Lemma templates_paths_NoDup self : NoDup (map (output_path self) templates).
Proof.
  rewrite map_fmap. apply NoDup_fmap_2_strong.
  - intros b b' Hb Hb' Heq.
    apply os_path_join_inj in Heq.
    + apply templates_cases in Hb, Hb'.
      destruct Hb as [-> | [-> | [-> | ->]]], Hb' as [-> | [-> | [-> | ->]]];
        done.
    + apply templates_cases in Hb. by destruct Hb as [-> | [-> | [-> | ->]]].
    + apply templates_cases in Hb'. by destruct Hb' as [-> | [-> | [-> | ->]]].
  - by apply (bool_decide_unpack _); vm_compute.
Qed.

Lemma templates_names_NoDup : NoDup (map snd templates).
Proof.
  by apply (bool_decide_unpack _); vm_compute.
Qed.

End Bindings.

(** ** The manifest generator *)

Section GeneratorClaims.
Context `{!Externals}.
Implicit Types (self : KubernetesManifestGenerator) (w : world)
  (b : string * string) (context : pyval).

Lemma artifact_ok self fs context b content :
  artifact self fs context b = Ok content →
  ∃ text value,
    render_result fs (template_renderer self) (snd b) context = Ok text
    ∧ open_w_fault (output_path self b) = None
    ∧ yaml_safe_load text = Ok value
    ∧ content = yaml_dump value.
Proof.
  unfold artifact, written_text.
  destruct (render_result _ _ _ _) as [text|]; [|discriminate].
  destruct (open_w_fault _) eqn:Ef; [discriminate|].
  destruct (yaml_safe_load text) as [value|] eqn:Ep; [|discriminate].
  intros [= <-]. by exists text, value.
Qed.

(** C5.  A binding that completes leaves, at the join of the output
    directory and its file name, the serialization of the parse of the
    rendered text, whatever the file held before; that text is the one
    write made to the file. *)
Theorem artifact_is_dump_of_parse self context b w w' :
  generate_one self context b w = (Ok tt, w') →
  ∃ text value evs,
    render_result (files w) (template_renderer self) (snd b) context = Ok text
    ∧ yaml_safe_load text = Ok value
    ∧ files w' =
        <[os_path_join (output_dir self) (fst b) := yaml_dump value]> (files w)
    ∧ trace w' = trace w ++ evs
    ∧ written evs = [(os_path_join (output_dir self) (fst b), yaml_dump value)].
Proof.
  intros Hrun.
  destruct (generate_one_run self context b w)
    as (fs' & evs & Heq & _ & _ & _ & _ & Hart).
  rewrite Heq in Hrun.
  destruct (artifact self (files w) context b) as [content|e] eqn:Ea;
    [|discriminate].
  destruct Hart as (-> & Hw & _). injection Hrun as <-.
  apply artifact_ok in Ea as (text & value & Hr & _ & Hp & ->).
  by exists text, value, evs.
Qed.

(** C2.  A successful run renders the four templates in the order
    service, ingress, deployment, autoscaler, and writes one file for
    each, named service.yaml, ingress.yaml, deploy.yaml and hpa.yaml in the
    output directory, in that order; the four paths differ, each file
    holds what was written to it, which is the serialization of the
    document parsed from the rendered text of its template, and no other
    file changes. *)
Theorem successful_run_writes_one_file_per_binding self context w w' :
  generate_yaml_files self context w = (Ok tt, w') →
  ∃ evs,
    trace w' = trace w ++ evs
    ∧ rendered evs =
        ["service.yaml.j2"; "ingress.yaml.j2"; "deploy.yaml.j2"; "hpa.yaml.j2"]
    ∧ map fst (written evs) =
        map (os_path_join (output_dir self))
          ["service.yaml"; "ingress.yaml"; "deploy.yaml"; "hpa.yaml"]
    ∧ opened_w evs = map fst (written evs)
    ∧ NoDup (map fst (written evs))
    ∧ (∀ path content, (path, content) ∈ written evs →
         files w' !! path = Some content)
    ∧ (∀ file_name template_name, (file_name, template_name) ∈ templates →
         ∃ text value,
           render_result (files w) (template_renderer self) template_name
             context = Ok text
           ∧ yaml_safe_load text = Ok value
           ∧ (os_path_join (output_dir self) file_name, yaml_dump value)
               ∈ written evs)
    ∧ (∀ path, path ∉ map fst (written evs) →
         files w' !! path = files w !! path).
Proof.
  intros Hrun. unfold generate_yaml_files in Hrun.
  pose proof (templates_paths_NoDup self) as Hnd.
  destruct (loop_run self context templates w (templates_separated self) Hnd)
    as (fs' & evs & Heq & _ & _ & _ & Hr & Hw & How & Hframe & Hfiles).
  rewrite Heq in Hrun. injection Hrun as Hres <-. simpl.
  exists evs. split; [done|].
  unfold templates in *. cbn [map fst snd output_path] in *.
  destruct (artifact _ _ _ ("service.yaml", _)) as [c1|] eqn:E1; [|done].
  destruct (artifact _ _ _ ("ingress.yaml", _)) as [c2|] eqn:E2; [|done].
  destruct (artifact _ _ _ ("deploy.yaml", _)) as [c3|] eqn:E3; [|done].
  destruct (artifact _ _ _ ("hpa.yaml", _)) as [c4|] eqn:E4; [|done].
  cbn in Hr, Hw, How, Hframe, Hfiles. rewrite Hw. cbn [map fst].
  apply artifact_ok in E1 as (t1 & v1 & Hr1 & _ & Hp1 & ->).
  apply artifact_ok in E2 as (t2 & v2 & Hr2 & _ & Hp2 & ->).
  apply artifact_ok in E3 as (t3 & v3 & Hr3 & _ & Hp3 & ->).
  apply artifact_ok in E4 as (t4 & v4 & Hr4 & _ & Hp4 & ->).
  split_and!; [done|done|by destruct How|done| | |done].
  - intros path content Hin.
    rewrite !elem_of_cons, elem_of_nil in Hin.
    destruct Hin as [[= -> ->] | [[= -> ->] | [[= -> ->] | [[= -> ->] | []]]]].
    + by apply (Hfiles 0 (_, _)).
    + by apply (Hfiles 1 (_, _)).
    + by apply (Hfiles 2 (_, _)).
    + by apply (Hfiles 3 (_, _)).
  - intros file_name template_name Hb.
    rewrite !elem_of_cons, elem_of_nil in Hb.
    destruct Hb as [[= -> ->] | [[= -> ->] | [[= -> ->] | [[= -> ->] | []]]]].
    + exists t1, v1. split_and!; [done..|]. rewrite !elem_of_cons. auto.
    + exists t2, v2. split_and!; [done..|]. rewrite !elem_of_cons. auto.
    + exists t3, v3. split_and!; [done..|]. rewrite !elem_of_cons. auto.
    + exists t4, v4. split_and!; [done..|]. rewrite !elem_of_cons. auto 6.
Qed.

(** C3.  When the binding of index [i] is the one whose rendering,
    opening for write or re-parsing raises, the bindings before it having
    completed, [generate_yaml_files] raises that exception; the templates
    rendered are those of the bindings up to [i]; each binding before [i]
    has its artifact on disk; and for a binding after [i] no template is
    rendered, no file is opened or written and its output path is as it
    was.  The documents parsed are at most as many as the files opened,
    so none is parsed for a later binding either. *)
Theorem generation_stops_at_first_failure self context w (i : nat) b e :
  templates !! i = Some b →
  (∀ (j : nat) b', j < i → templates !! j = Some b' →
     is_ok (artifact self (files w) context b') = true) →
  artifact self (files w) context b = Raise e →
  ∃ w' evs,
    generate_yaml_files self context w = (Raise e, w')
    ∧ trace w' = trace w ++ evs
    ∧ rendered evs = take (S i) (map snd templates)
    ∧ length (parsed evs) ≤ length (opened_w evs) ≤ S i
    ∧ (∀ (j : nat) b', j < i → templates !! j = Some b' →
         ∃ content,
           artifact self (files w) context b' = Ok content
           ∧ (files w' !! output_path self b') = Some content
           ∧ (output_path self b', content) ∈ written evs)
    ∧ (∀ (j : nat) b', i < j → templates !! j = Some b' →
         (snd b' ∉ rendered evs)
         ∧ (output_path self b' ∉ opened_w evs)
         ∧ (∀ content, (output_path self b', content) ∉ written evs)
         ∧ files w' !! output_path self b' = files w !! output_path self b').
Proof.
  intros Hi Hbefore Hfail. unfold generate_yaml_files.
  pose proof (templates_paths_NoDup self) as Hnd.
  destruct (loop_run self context templates w (templates_separated self) Hnd)
    as (fs' & evs & Heq & _ & _ & Hpa & Hr & Hw & How & Hframe & Hfiles).
  cbn zeta in *. rewrite Heq. clear Heq.
  set (rs := map (artifact self (files w) context) templates) in *.
  assert (Hrs : ∀ (j : nat) b', templates !! j = Some b' →
                  rs !! j = Some (artifact self (files w) context b')).
  { intros j b' Hj. unfold rs. by rewrite map_fmap, list_lookup_fmap, Hj. }
  assert (Hpaths : ∀ (j : nat) b', templates !! j = Some b' →
                     map (output_path self) templates !! j
                       = Some (output_path self b')).
  { intros j b' Hj. by rewrite map_fmap, list_lookup_fmap, Hj. }
  destruct (first_raise_at rs i e) as (Hres & Hlen & Hok).
  { rewrite (Hrs i b Hi). by rewrite Hfail. }
  { intros j r Hj Hr'. destruct (lookup_lt_is_Some_2 templates j) as [b' Hb'].
    { apply lookup_lt_Some in Hr'. unfold rs in Hr'.
      by rewrite length_map in Hr'. }
    rewrite (Hrs j b' Hb') in Hr'. injection Hr' as <-. by eapply Hbefore. }
  rewrite Hres, Hlen in *. eexists _, evs. simpl.
  split_and!; [done|done|done|lia| | |].
  - destruct How as [-> | ->]; rewrite length_take; lia.
  - intros j b' Hj Hb'.
    destruct (artifact self (files w) context b') as [content|] eqn:Ea;
      [|by specialize (Hbefore j b' Hj Hb'); rewrite Ea in Hbefore].
    assert (Hc : ok_prefix rs !! j = Some content).
    { apply Hok; [done|]. by rewrite (Hrs j b' Hb'), Ea. }
    exists content. split_and!; [done|by eapply Hfiles|].
    rewrite Hw. apply (list_elem_of_lookup_2 _ j).
    rewrite lookup_zip_with, (Hpaths j b' Hb'). cbn [mbind option_bind].
    by rewrite Hc.
  - intros j b' Hj Hb'. split_and!.
    + rewrite Hr. apply (NoDup_not_in_take _ j); [|  |lia].
      * apply templates_names_NoDup.
      * by rewrite map_fmap, list_lookup_fmap, Hb'.
    + destruct How as [-> | ->];
        (apply (NoDup_not_in_take _ j); [done|by apply Hpaths|lia]).
    + intros content. rewrite Hw.
      intros (k & Hk)%list_elem_of_lookup_1.
      apply lookup_zip_with_Some in Hk
        as (p & c & [= <- <-] & Hp & Hc).
      pose proof (NoDup_lookup _ k j _ Hnd Hp (Hpaths j b' Hb')).
      apply lookup_lt_Some in Hc. lia.
    + apply Hframe. apply (NoDup_not_in_take _ j); [done|by apply Hpaths|lia].
Qed.

End GeneratorClaims.

(** ** The reader and the orchestrator *)

Section Run.
Context `{!Externals}.
Implicit Types (w : world) (context : pyval).

Lemma read_run (self : EnvReader) w :
  ∃ evs,
    EnvReader_read self w =
      (read_result self (files w) (dirs w) (environ w),
       {| files := files w; dirs := dirs w; environ := environ w;
          trace := trace w ++ EvOpenRead (env_file self) :: evs |})
    ∧ rendered evs = [] ∧ opened_w evs = [] ∧ written evs = []
    ∧ opened_r evs = [] ∧ commands evs = [].
Proof.
  unfold EnvReader_read, read_result, open_r, safe_load, os_environ_items.
  unfold_m. simpl.
  destruct (files w !! env_file self) as [text|]; simpl.
  - destruct (yaml_safe_load text) as [context|e]; simpl.
    + eexists [_]. by rewrite <- !app_assoc.
    + destruct (is_FileNotFoundError e); simpl;
        eexists [_; _]; by rewrite <- !app_assoc.
  - destruct (is_FileNotFoundError _); simpl;
      eexists [_]; by rewrite <- !app_assoc.
Qed.

Lemma run_run (self : App) w :
  let g := k8s_generator self in
  ∃ fs' evs,
    App_run self w =
      (run_result self (files w) (dirs w) (environ w),
       {| files := fs'; dirs := dirs w; environ := environ w;
          trace := trace w ++ evs |})
    ∧ commands evs = []
    ∧ opened_r evs = [env_file (env_reader g)]
    ∧ match read_result (env_reader g) (files w) (dirs w) (environ w) with
      | Raise _ =>
          fs' = files w ∧ rendered evs = [] ∧ opened_w evs = []
          ∧ written evs = []
      | Ok context =>
          let rs := map (artifact g (files w) context) templates in
          let n := S (length (ok_prefix rs)) in
          rendered evs = take n (map snd templates)
          ∧ written evs = zip (map (output_path g) templates) (ok_prefix rs)
          ∧ (opened_w evs = take (length (ok_prefix rs)) (map (output_path g) templates)
             ∨ opened_w evs = take n (map (output_path g) templates))
          ∧ (∀ p, p ∉ take n (map (output_path g) templates) →
               fs' !! p = files w !! p)
          ∧ (∀ (i : nat) b c, templates !! i = Some b →
               ok_prefix rs !! i = Some c →
               fs' !! output_path g b = Some c)
      end.
Proof.
  intros g. unfold App_run, run_result. fold g.
  unfold try_except at 1. unfold bind at 1.
  unfold logging_info at 1. unfold emit at 1.
  unfold bind at 1.
  destruct (read_run (env_reader g) (record (EvLog INFO "Starting application...") w))
    as (evs_r & -> & Hr1 & Hr2 & Hr3 & Hr4 & Hr5).
  unfold record. cbn [files dirs environ trace].
  destruct (read_result _ _ _ _) as [context|e].
  - unfold bind at 1. unfold generate_yaml_files.
    match goal with |- context [for_each _ templates ?w1] =>
      destruct (loop_run g context templates w1 (templates_separated g)
                  (templates_paths_NoDup g))
        as (fs' & evs & -> & Hor & Hc & _ & Hr & Hw & How & Hframe & Hfiles)
    end. cbn [files dirs environ trace] in Hr, Hw, How, Hframe, Hfiles |- *.
    destruct (first_raise _) as [[]|e]; unfold_m;
      cbn [files dirs environ trace].
    + eexists fs', (_ :: _ :: evs_r ++ evs ++ [_]).
      split; [by rewrite <- !app_assoc|].
      change (?x :: ?y :: ?l) with ([x; y] ++ l).
      rewrite !commands_app, !opened_r_app, !rendered_app, !written_app,
        !opened_w_app, Hr1, Hr2, Hr3, Hr4, Hr5, Hor, Hc.
      cbn [commands opened_r rendered written opened_w omap app].
      rewrite !app_nil_r. done.
    + eexists fs', (_ :: _ :: evs_r ++ evs ++ [_]).
      split; [by rewrite <- !app_assoc|].
      change (?x :: ?y :: ?l) with ([x; y] ++ l).
      rewrite !commands_app, !opened_r_app, !rendered_app, !written_app,
        !opened_w_app, Hr1, Hr2, Hr3, Hr4, Hr5, Hor, Hc.
      cbn [commands opened_r rendered written opened_w omap app].
      rewrite !app_nil_r. done.
  - unfold_m. cbn [files dirs environ trace].
    eexists (files w), (_ :: _ :: evs_r ++ [_]).
    split; [by rewrite <- !app_assoc|]. simpl.
    rewrite !commands_app, !opened_r_app, !rendered_app, !written_app,
      !opened_w_app, Hr1, Hr2, Hr3, Hr4, Hr5. done.
Qed.

End Run.

(** ** The configuration reader *)

Section ReaderClaims.
Context `{!Externals}.
Implicit Types (self : EnvReader) (w : world).

(** C1.  On a document that parses to a mapping, [read] returns a
    mapping with the keys of the document, in their order; a key that the
    document and the environment share is bound to the environment's
    string; an entry whose key the environment does not name is as it
    was; a key that the document lacks is not in the result. *)
Theorem read_overrides_document_keys_only self w text d :
  files w !! env_file self = Some text →
  yaml_safe_load text = Ok (PDict d) →
  ∃ d',
    fst (EnvReader_read self w) = Ok (PDict d')
    ∧ map fst d' = map fst d
    ∧ (∀ k v, environ w !! k = Some v → dict_has k d = true →
         dict_get k d' = Some (PStr v))
    ∧ (∀ k, environ w !! k = None → dict_get k d' = dict_get k d)
    ∧ (∀ (i : nat) key val, d !! i = Some (key, val) →
         (∀ k, key = PStr k → environ w !! k = None) →
         d' !! i = Some (key, val))
    ∧ (∀ k, dict_has k d = false → dict_has k d' = false).
Proof.
  intros Hf Hp. rewrite (read_parsed self w text (PDict d) Hf Hp).
  rewrite overwrite_dict. simpl. eexists. split; [done|].
  pose proof (NoDup_fst_map_to_list (environ w)) as Hnd.
  split_and!.
  - apply overwrite_keys.
  - intros k v Hk Hd. apply overwrite_get_present; [done| |done].
    by apply elem_of_map_to_list.
  - intros k Hk. apply overwrite_get_absent.
    intros ([k' v] & -> & Hin%elem_of_map_to_list)%list_elem_of_fmap.
    simpl in Hk. congruence.
  - intros i key val Hi Hkey. apply overwrite_lookup_untouched; [done|].
    intros k v Hin%elem_of_map_to_list.
    destruct (is_str k key) eqn:E; [|done].
    apply is_str_true in E. specialize (Hkey k E). congruence.
  - intros k Hk. by rewrite overwrite_has.
Qed.

Lemma overwrite_skip items context :
  (∀ k v, (k, v) ∈ items → contains k context = Ok false) →
  overwrite items context = Ok context.
Proof.
  induction items as [|[k v] items IH]; intros Hno; simpl; [done|].
  rewrite (Hno k v) by left. apply IH. intros k' v' Hin. apply (Hno k' v').
  by right.
Qed.

(** C10.  [read] hands back whatever the parser produced, mapping or
    not, when the membership test is false for every name of the
    environment: a sequence none of whose items is such a name, a string
    of which no such name is a part, anything at all under an empty
    environment. *)
Theorem read_returns_unchecked_value self w text context :
  files w !! env_file self = Some text →
  yaml_safe_load text = Ok context →
  (∀ k, is_Some (environ w !! k) → contains k context = Ok false) →
  fst (EnvReader_read self w) = Ok context.
Proof.
  intros Hf Hp Hno. rewrite (read_parsed self w text context Hf Hp). simpl.
  apply overwrite_skip. intros k v Hin%elem_of_map_to_list. apply Hno. eauto.
Qed.

(** A null document under a non-empty environment: the membership test
    itself raises. *)
Lemma read_null_raises self w text :
  files w !! env_file self = Some text →
  yaml_safe_load text = Ok PNone →
  environ w ≠ ∅ →
  fst (EnvReader_read self w) =
    Raise (Exn TypeError "argument of type 'NoneType' is not iterable").
Proof.
  intros Hf Hp Hne. rewrite (read_parsed self w text PNone Hf Hp). simpl.
  destruct (map_to_list (environ w)) as [|[k v] items] eqn:E.
  - by apply map_to_list_empty_iff in E.
  - done.
Qed.

End ReaderClaims.

(** ** The renderer, the apply step, the orchestrator *)

Section RunClaims.
Context `{!Externals}.
Implicit Types (w : world) (context : pyval).

(** C4.  [apply_kubernetes_manifests] runs the command once and returns
    normally, also when the command's status is not zero. *)
Theorem apply_returns_normally_on_nonzero_status
    (self : KubernetesManifestGenerator) w :
  os_system ("kubectl apply -f " +:+ output_dir self +:+ "/") ≠ 0%Z →
  ∃ w' evs,
    apply_kubernetes_manifests self w = (Ok tt, w')
    ∧ trace w' = trace w ++ evs
    ∧ commands evs = ["kubectl apply -f " +:+ output_dir self +:+ "/"]
    ∧ evs = [EvSystem ("kubectl apply -f " +:+ output_dir self +:+ "/");
             EvLog INFO ("Applied Kubernetes resources from " +:+ output_dir self)].
Proof.
  intros _. unfold apply_kubernetes_manifests. unfold_m. simpl.
  eexists _, [_; _]. by rewrite <- app_assoc.
Qed.



Lemma makedirs_run path w :
  ∃ r ds,
    os_makedirs path w =
      (r, {| files := files w; dirs := ds; environ := environ w;
             trace := trace w ++ [EvMakedirs path] |}).
Proof.
  unfold os_makedirs. unfold_m. simpl.
  destruct (String.eqb path ""); [by eexists _, _|].
  destruct (files w !! path); [by eexists _, _|].
  destruct (mkdir_chain _ _ _) as [r ds]. by eexists _, _.
Qed.



(** C7.  A run issues no command: no [os.system] call is among the
    calls [run] makes, nor among those of the whole program. *)
Theorem run_issues_no_command (self : App) w :
  (∃ evs, trace (snd (App_run self w)) = trace w ++ evs ∧ commands evs = [])
  ∧ (∃ evs, trace (snd (main w)) = trace w ++ evs ∧ commands evs = []).
Proof.
  split.
  - destruct (run_run self w) as (fs' & evs & -> & Hc & _). by exists evs.
  - unfold main, App_init, KubernetesManifestGenerator_init, bind, ret.
    destruct (makedirs_run OUTPUT_DIR w) as ([[]|e] & ds & ->).
    + match goal with |- context [App_run ?a ?w0] =>
        destruct (run_run a w0) as (fs' & evs & -> & Hc & _)
      end. simpl. exists (EvMakedirs OUTPUT_DIR :: evs).
      rewrite <- app_assoc. by simpl.
    + by exists [EvMakedirs OUTPUT_DIR].
Qed.

Lemma run_unfold (self : App) w :
  let g := k8s_generator self in
  App_run self w =
    match EnvReader_read (env_reader g)
            (record (EvLog INFO "Starting application...") w) with
    | (Raise e, w1) =>
        (Raise e, record (EvLog ERROR ("An error occurred: " +:+ exn_str e)) w1)
    | (Ok context, w1) =>
        match generate_yaml_files g context w1 with
        | (Raise e, w2) =>
            (Raise e,
             record (EvLog ERROR ("An error occurred: " +:+ exn_str e)) w2)
        | (Ok _, w2) =>
            (Ok tt,
             record (EvLog INFO "Application completed successfully.") w2)
        end
    end.
Proof.
  intros g. unfold App_run. fold g.
  unfold try_except at 1. unfold bind at 1.
  unfold logging_info at 1. unfold emit at 1. unfold bind at 1.
  destruct (EnvReader_read _ _) as [[context|e] w1]; [|done].
  unfold bind at 1.
  destruct (generate_yaml_files g context w1) as [[[]|e] w2]; done.
Qed.

(** C8.  The exception [run] raises is the one its component raised:
    the reader's, the generator's, and through the generator the
    renderer's; [run] returns normally only when both the reader and the
    generator did.  Nothing is tried twice: the configuration file is
    opened once, and no template is rendered and no output file opened
    more than once. *)
Theorem run_reraises_component_errors (self : App) w :
  let g := k8s_generator self in
  let w0 := record (EvLog INFO "Starting application...") w in
  (∀ e w1, EnvReader_read (env_reader g) w0 = (Raise e, w1) →
     fst (App_run self w) = Raise e)
  ∧ (∀ context w1 e w2,
       EnvReader_read (env_reader g) w0 = (Ok context, w1) →
       generate_yaml_files g context w1 = (Raise e, w2) →
       fst (App_run self w) = Raise e)
  ∧ (∀ context w1 (i : nat) b e,
       EnvReader_read (env_reader g) w0 = (Ok context, w1) →
       templates !! i = Some b →
       (∀ (j : nat) b', j < i → templates !! j = Some b' →
          is_ok (artifact g (files w) context b') = true) →
       render_result (files w) (template_renderer g) (snd b) context = Raise e →
       fst (App_run self w) = Raise e)
  ∧ (fst (App_run self w) = Ok tt →
     ∃ context w1 w2,
       EnvReader_read (env_reader g) w0 = (Ok context, w1)
       ∧ generate_yaml_files g context w1 = (Ok tt, w2))
  ∧ (∃ evs,
       trace (snd (App_run self w)) = trace w ++ evs
       ∧ opened_r evs = [env_file (env_reader g)]
       ∧ NoDup (rendered evs) ∧ NoDup (opened_w evs)).
Proof.
  intros g w0. pose proof (run_unfold self w) as Hun. cbn zeta in Hun.
  fold g w0 in Hun. split_and!.
  - intros e w1 Hread. by rewrite Hun, Hread.
  - intros context w1 e w2 Hread Hgen. by rewrite Hun, Hread, Hgen.
  - intros context w1 i b e Hread Hi Hbefore Hrender.
    destruct (read_run (env_reader g) w0) as (evs_r & Hr & _).
    rewrite Hread in Hr. injection Hr as Hres _. simpl in Hres.
    destruct (run_run self w) as (fs' & evs & -> & _). simpl.
    unfold run_result. fold g. rewrite <- Hres.
    apply (first_raise_at _ i e).
    + rewrite map_fmap, list_lookup_fmap, Hi. simpl.
      unfold artifact. by rewrite Hrender.
    + intros j r Hj. rewrite map_fmap, list_lookup_fmap.
      destruct (templates !! j) as [b'|] eqn:Hb'; [|done].
      intros [= <-]. by eapply Hbefore.
  - rewrite Hun.
    destruct (EnvReader_read _ w0) as [[context|e] w1]; [|done].
    destruct (generate_yaml_files g context w1) as [[[]|e] w2] eqn:Hgen;
      [|done].
    intros _. by exists context, w1, w2.
  - destruct (run_run self w) as (fs' & evs & -> & _ & Hor & Hcase). fold g in Hcase.
    exists evs. simpl. split_and!; [done|done| |].
    + destruct (read_result _ _ _ _).
      * destruct Hcase as (-> & _).
        eapply sublist_NoDup; [apply templates_names_NoDup|apply sublist_take].
      * destruct Hcase as (_ & -> & _). apply NoDup_nil_2.
    + destruct (read_result _ _ _ _).
      * destruct Hcase as (_ & _ & How & _).
        destruct How as [-> | ->];
          (eapply sublist_NoDup; [apply templates_paths_NoDup|apply sublist_take]).
      * destruct Hcase as (_ & _ & -> & _). apply NoDup_nil_2.
Qed.

End RunClaims.

(** ** The program on the example inputs *)

Section Examples.
Local Existing Instance Demo.lib.

(** C1 on the example: [image] comes from the environment,
    [replicaCount] from the document, [HOME] is not added. *)
Lemma read_overrides_document_keys_only_witness :
  ∃ d',
    fst (EnvReader_read {| env_file := "values.yaml" |} Demo.w0) = Ok (PDict d')
    ∧ map fst d' = [PStr "replicaCount"; PStr "image"]
    ∧ dict_get "image" d' = Some (PStr "app:v2")
    ∧ dict_get "replicaCount" d' = Some (PInt 3).
Proof.
  destruct (read_overrides_document_keys_only {| env_file := "values.yaml" |}
              Demo.w0 Demo.values_text
              [(PStr "replicaCount", PInt 3); (PStr "image", PStr "app:v1")])
    as (d' & Hread & Hkeys & Hboth & Honly & _).
  - vm_compute. reflexivity.
  - reflexivity.
  - exists d'. split; [exact Hread|]. split; [exact Hkeys|]. split.
    + apply Hboth; vm_compute; reflexivity.
    + rewrite Honly; vm_compute; reflexivity.
Defined.

(** C2 on the example. *)
Lemma successful_run_writes_one_file_per_binding_witness :
  ∃ evs,
    trace (snd (generate_yaml_files Demo.gen Demo.context Demo.w0)) = evs
    ∧ rendered evs =
        ["service.yaml.j2"; "ingress.yaml.j2"; "deploy.yaml.j2"; "hpa.yaml.j2"]
    ∧ map fst (written evs) =
        ["output/service.yaml"; "output/ingress.yaml"; "output/deploy.yaml";
         "output/hpa.yaml"].
Proof.
  destruct (successful_run_writes_one_file_per_binding Demo.gen Demo.context
              Demo.w0 (snd (generate_yaml_files Demo.gen Demo.context Demo.w0)))
    as (evs & Htrace & Hr & Hw & _).
  - vm_compute. reflexivity.
  - exists evs. split; [exact Htrace|]. split; [exact Hr|exact Hw].
Defined.

(** C3 on the example: the ingress template renders to an unbalanced
    document. *)
Lemma generation_stops_at_first_failure_witness :
  ∃ w' evs,
    generate_yaml_files Demo.gen Demo.context Demo.w_bad_ingress
      = (Raise Demo.yaml_error, w')
    ∧ trace w' = evs
    ∧ rendered evs = ["service.yaml.j2"; "ingress.yaml.j2"]
    ∧ files w' !! "output/service.yaml" = Some "kind: Service"
    ∧ files w' !! "output/deploy.yaml" = None
    ∧ files w' !! "output/hpa.yaml" = None.
Proof.
  destruct (generation_stops_at_first_failure Demo.gen Demo.context
              Demo.w_bad_ingress 1 ("ingress.yaml", "ingress.yaml.j2")
              Demo.yaml_error)
    as (w' & evs & Hrun & Htrace & Hr & _ & Hbefore & Hafter).
  - reflexivity.
  - intros [|j] b' Hj; [|lia]. intros [= <-]. vm_compute. reflexivity.
  - vm_compute. reflexivity.
  - exists w', evs. split; [exact Hrun|]. split; [exact Htrace|].
    split; [exact Hr|].
    destruct (Hbefore 0 ("service.yaml", "service.yaml.j2"))
      as (content & Ha & Hf & _); [lia|reflexivity|].
    vm_compute in Ha. injection Ha as <-.
    destruct (Hafter 2 ("deploy.yaml", "deploy.yaml.j2"))
      as (_ & _ & _ & Hd); [lia|reflexivity|].
    destruct (Hafter 3 ("hpa.yaml", "hpa.yaml.j2"))
      as (_ & _ & _ & Hh); [lia|reflexivity|].
    split; [exact Hf|]. split; [exact Hd|exact Hh].
Defined.

(** C5 on the example: the deployment manifest. *)
Lemma artifact_is_dump_of_parse_witness :
  files (snd (generate_one Demo.gen Demo.context
                ("deploy.yaml", "deploy.yaml.j2") Demo.w0))
    !! "output/deploy.yaml" = Some "image: app:v2".
Proof.
  destruct (artifact_is_dump_of_parse Demo.gen Demo.context
              ("deploy.yaml", "deploy.yaml.j2") Demo.w0
              (snd (generate_one Demo.gen Demo.context
                      ("deploy.yaml", "deploy.yaml.j2") Demo.w0)))
    as (text & value & evs & Hr & Hp & Hfiles & _).
  - vm_compute. reflexivity.
  - rewrite Hfiles. vm_compute in Hr. injection Hr as <-.
    vm_compute in Hp. injection Hp as <-. apply lookup_insert_eq.
Defined.


(** C8 on the example: the parser's exception on the ingress manifest
    is the one [run] raises. *)
Lemma run_reraises_component_errors_witness :
  fst (App_run Demo.app Demo.w_bad_ingress) = Raise Demo.yaml_error.
Proof.
  destruct (run_reraises_component_errors Demo.app Demo.w_bad_ingress)
    as (_ & Hgen & _).
  apply (Hgen Demo.context
           (snd (EnvReader_read {| env_file := ENV_FILE |}
                   (record (EvLog INFO "Starting application...")
                      Demo.w_bad_ingress)))
           Demo.yaml_error
           (snd (generate_yaml_files Demo.gen Demo.context
                   (snd (EnvReader_read {| env_file := ENV_FILE |}
                           (record (EvLog INFO "Starting application...")
                              Demo.w_bad_ingress)))))).
  - vm_compute. reflexivity.
  - vm_compute. reflexivity.
Defined.

(** C4 on the example: the command exits with status 1. *)
Lemma apply_returns_normally_on_nonzero_status_witness :
  os_system "kubectl apply -f output/" = 256%Z
  ∧ fst (apply_kubernetes_manifests Demo.gen Demo.w0) = Ok tt.
Proof.
  split; [reflexivity|].
  destruct (apply_returns_normally_on_nonzero_status Demo.gen Demo.w0)
    as (w' & evs & Hrun & _).
  - discriminate.
  - rewrite Hrun. reflexivity.
Defined.

(** C10 on the example: the values file holds a sequence. *)
Lemma read_returns_unchecked_value_witness :
  fst (EnvReader_read {| env_file := "values.yaml" |} Demo.w_list_values)
    = Ok (PList [PStr "a"; PStr "b"]).
Proof.
  apply (read_returns_unchecked_value {| env_file := "values.yaml" |}
           Demo.w_list_values "[a, b]").
  - vm_compute. reflexivity.
  - reflexivity.
  - intros k [v Hk]. simpl in Hk. unfold Demo.env in Hk.
    apply lookup_insert_Some in Hk as [[<- _]|[_ Hk]]; [reflexivity|].
    apply lookup_singleton_Some in Hk as [<- _]. reflexivity.
Defined.

(** C2, as first stated, fails: a successful run whose autoscaler
    manifest the parser rejects. *)
Lemma successful_run_writes_unloadable_file :
  ∃ w' content,
    @generate_yaml_files Pairs.lib Demo.gen Demo.context Pairs.w_pairs
      = (Ok tt, w')
    ∧ files w' !! "output/hpa.yaml" = Some content
    ∧ is_ok (@yaml_safe_load Pairs.lib content) = false.
Proof.
  eexists _, _. split; [vm_compute; reflexivity|].
  split; vm_compute; reflexivity.
Qed.


End Examples.

(** * Further properties of the code *)

(** ** The override loop on values that are not mappings *)

Section OverwriteEdge.
Implicit Types (items : list (string * string)) (c : pyval).

Lemma overwrite_scalar items c :
  is_scalar c = true → items ≠ [] →
  overwrite items c =
    Raise (Exn TypeError
             ("argument of type '" +:+ type_name c +:+ "' is not iterable")).
Proof.
  intros Hc Hne. destruct items as [|[k v] items]; [done|].
  by destruct c.
Qed.

(** A container whose membership test never raises and whose item
    assignment always does: the loop raises at the first name the test
    finds, and otherwise returns the container. *)
Lemma overwrite_no_assignment items c (hit : string → bool) e :
  (∀ k, contains k c = Ok (hit k)) →
  (∀ k v, setitem c k v = Raise e) →
  overwrite items c =
    if existsb (fun kv => hit (fst kv)) items then Raise e else Ok c.
Proof.
  intros Hin Hset. induction items as [|[k v] items IH]; simpl; [done|].
  rewrite Hin. destruct (hit k); simpl; [by rewrite Hset|done].
Qed.

Lemma existsb_items_true items (hit : string → bool) k v :
  (k, v) ∈ items → hit k = true →
  existsb (fun kv => hit (fst kv)) items = true.
Proof.
  intros Hin Hk. apply existsb_exists. exists (k, v).
  split; [by apply list_elem_of_In|done].
Qed.

Lemma existsb_items_false items (hit : string → bool) :
  (∀ k v, (k, v) ∈ items → hit k = false) →
  existsb (fun kv => hit (fst kv)) items = false.
Proof.
  intros Hno. apply not_true_is_false. intros ([k v] & Hin & Hk)%existsb_exists.
  apply list_elem_of_In in Hin. simpl in Hk. by rewrite (Hno k v Hin) in Hk.
Qed.

End OverwriteEdge.

(** ** The override loop on a mapping, in closed form *)

Section OverlayForm.
Implicit Types (d : list (pyval * pyval)) (k : string).

Lemma dict_has_lookup d (i : nat) k x :
  d !! i = Some (PStr k, x) → dict_has k d = true.
Proof.
  intros Hi. unfold dict_has. apply existsb_exists. exists (PStr k, x).
  split; [by eapply list_elem_of_In, list_elem_of_lookup_2|].
  simpl. apply String.eqb_refl.
Qed.

Lemma dict_get_lookup_NoDup d (i : nat) k x :
  NoDup (map fst d) → d !! i = Some (PStr k, x) → dict_get k d = Some x.
Proof.
  revert i. induction d as [|[k0 v0] d IH]; intros i Hnd Hi; [done|].
  cbn [map fst] in Hnd. apply NoDup_cons in Hnd as [Hk0 Hnd].
  destruct i as [|i]; simpl in *.
  - injection Hi as -> ->. simpl. by rewrite String.eqb_refl.
  - destruct (is_str k k0) eqn:E; [|by eapply IH].
    apply is_str_true in E. subst k0. exfalso. apply Hk0.
    rewrite map_fmap. apply list_elem_of_fmap. exists (PStr k, x).
    split; [done|]. by eapply list_elem_of_lookup_2.
Qed.

Lemma overwrite_is_overlay (env : gmap string string) d :
  NoDup (map fst d) →
  fold_left overwrite_step (map_to_list env) d = overlay env d.
Proof.
  intros Hnd. set (d' := fold_left overwrite_step (map_to_list env) d).
  assert (Hkeys : map fst d' = map fst d) by apply overwrite_keys.
  assert (Hlen : length d' = length d).
  { by rewrite <- (length_map fst d'), Hkeys, length_map. }
  apply list_eq. intros i. unfold overlay. rewrite map_fmap, list_lookup_fmap.
  destruct (d !! i) as [[key val]|] eqn:Hi; simpl.
  - assert (Hfst : ∀ kv, d' !! i = Some kv → fst kv = key).
    { intros kv Hkv. apply (f_equal (fun l => l !! i)) in Hkeys.
      rewrite !map_fmap, !list_lookup_fmap, Hkv, Hi in Hkeys.
      by injection Hkeys. }
    destruct key as [| | | |k| | | | | | |];
      try (apply overwrite_lookup_untouched; [done|by intros]).
    destruct (env !! k) as [s|] eqn:Hk.
    + destruct (lookup_lt_is_Some_2 d' i) as [[key' x'] Hi'].
      { rewrite Hlen. by eapply lookup_lt_Some. }
      pose proof (Hfst _ Hi') as Hkey. simpl in Hkey. subst key'.
      rewrite Hi'. do 2 f_equal.
      assert (Hget : dict_get k d' = Some (PStr s)).
      { apply overwrite_get_present.
        - apply NoDup_fst_map_to_list.
        - by apply elem_of_map_to_list.
        - by eapply dict_has_lookup. }
      rewrite (dict_get_lookup_NoDup d' i k x') in Hget;
        [congruence|by rewrite Hkeys|done].
    + apply overwrite_lookup_untouched; [done|].
      intros k' v Hin%elem_of_map_to_list. simpl.
      destruct (String.eqb k' k) eqn:E; [|done].
      apply String.eqb_eq in E. congruence.
  - apply lookup_ge_None. rewrite Hlen. by apply lookup_ge_None.
Qed.

End OverlayForm.

Section ReaderExtras.
Context `{!Externals}.
Implicit Types (self : EnvReader) (w : world).

(** X1.  When the values file parses to null, a boolean or a number and
    at least one environment variable is set, [read] raises the type error
    of the membership test, naming the type. *)
Theorem read_scalar_document_raises self w text c :
  files w !! env_file self = Some text →
  yaml_safe_load text = Ok c →
  is_scalar c = true →
  environ w ≠ ∅ →
  fst (EnvReader_read self w) =
    Raise (Exn TypeError
             ("argument of type '" +:+ type_name c +:+ "' is not iterable")).
Proof.
  intros Hf Hp Hc Hne. rewrite (read_parsed self w text c Hf Hp). simpl.
  apply overwrite_scalar; [done|]. by rewrite map_to_list_empty_iff.
Qed.

(** X2.  When the values file parses to a string, [read] returns that
    string if no environment variable's name is a part of it, and raises
    the type error of the item assignment if one is. *)
Theorem read_string_document self w text s :
  files w !! env_file self = Some text →
  yaml_safe_load text = Ok (PStr s) →
  ((∀ k, is_Some (environ w !! k) → str_contains k s = false) →
   fst (EnvReader_read self w) = Ok (PStr s))
  ∧ (∀ k, is_Some (environ w !! k) → str_contains k s = true →
     fst (EnvReader_read self w) =
       Raise (Exn TypeError "'str' object does not support item assignment")).
Proof.
  intros Hf Hp. rewrite (read_parsed self w text _ Hf Hp). simpl.
  rewrite (overwrite_no_assignment _ (PStr s) (fun k => str_contains k s)
             (Exn TypeError "'str' object does not support item assignment"))
    by done.
  split.
  - intros Hno. rewrite (existsb_items_false _ (fun k => str_contains k s)); [done|].
    intros k v Hin%elem_of_map_to_list. apply Hno. eauto.
  - intros k [v Hk] Hhit.
    rewrite (existsb_items_true _ (fun k => str_contains k s) k v); [done| |done].
    by apply elem_of_map_to_list.
Qed.

(** X3.  When the values file parses to a sequence, [read] returns the
    sequence if no environment variable's name is one of its items, and
    raises the type error of indexing a list by a string if one is. *)
Theorem read_sequence_document self w text items :
  files w !! env_file self = Some text →
  yaml_safe_load text = Ok (PList items) →
  ((∀ k, is_Some (environ w !! k) → existsb (is_str k) items = false) →
   fst (EnvReader_read self w) = Ok (PList items))
  ∧ (∀ k, is_Some (environ w !! k) → existsb (is_str k) items = true →
     fst (EnvReader_read self w) =
       Raise (Exn TypeError "list indices must be integers or slices, not str")).
Proof.
  intros Hf Hp. rewrite (read_parsed self w text _ Hf Hp). simpl.
  rewrite (overwrite_no_assignment _ (PList items)
             (fun k => existsb (is_str k) items)
             (Exn TypeError "list indices must be integers or slices, not str"))
    by done.
  split.
  - intros Hno. rewrite (existsb_items_false _ (fun k => existsb (is_str k) items)); [done|].
    intros k v Hin%elem_of_map_to_list. apply Hno. eauto.
  - intros k [v Hk] Hhit.
    rewrite (existsb_items_true _ (fun k => existsb (is_str k) items) k v); [done| |done].
    by apply elem_of_map_to_list.
Qed.

(** X4.  On a mapping whose keys are distinct, [read] returns the
    document with the value of each key that names an environment variable
    replaced by that variable's string, and nothing else changed: the
    result does not depend on the order in which the environment is
    walked. *)
Theorem read_is_overlay self w text d :
  files w !! env_file self = Some text →
  yaml_safe_load text = Ok (PDict d) →
  NoDup (map fst d) →
  fst (EnvReader_read self w) = Ok (PDict (overlay (environ w) d)).
Proof.
  intros Hf Hp Hnd. rewrite (read_parsed self w text _ Hf Hp). simpl.
  by rewrite overwrite_dict, overwrite_is_overlay.
Qed.

(** X5.  Whatever it returns or raises, [read] leaves files, directories
    and environment as they were; the only file it opens is the values
    file, and it opens none for writing and runs no command. *)
Theorem read_changes_nothing self w :
  ∃ evs,
    trace (snd (EnvReader_read self w)) = trace w ++ evs
    ∧ files (snd (EnvReader_read self w)) = files w
    ∧ dirs (snd (EnvReader_read self w)) = dirs w
    ∧ environ (snd (EnvReader_read self w)) = environ w
    ∧ opened_r evs = [env_file self]
    ∧ opened_w evs = [] ∧ written evs = [] ∧ commands evs = []
    ∧ rendered evs = [].
Proof.
  destruct (read_run self w) as (evs & -> & Hr & How & Hw & Hor & Hc).
  exists (EvOpenRead (env_file self) :: evs). simpl.
  by rewrite Hr, How, Hw, Hor, Hc.
Qed.

(** X6.  When the parser rejects the values file, [read] raises the
    parser's exception, having logged one error that carries its message
    (under the file-not-found text if the exception is of that class); the
    environment is not applied. *)
Theorem read_reraises_parse_error self w text e :
  files w !! env_file self = Some text →
  yaml_safe_load text = Raise e →
  ∃ w',
    EnvReader_read self w = (Raise e, w')
    ∧ trace w' =
        trace w ++
        [ EvOpenRead (env_file self); EvSafeLoad text;
          EvLog ERROR
            (if is_FileNotFoundError e
             then "Environment file '" +:+ env_file self +:+ "' not found."
             else "Error reading environment variables: " +:+ exn_str e) ]
    ∧ files w' = files w.
Proof.
  intros Hf Hp. unfold EnvReader_read, open_r, safe_load, os_environ_items.
  unfold_m. simpl. rewrite Hf. simpl. rewrite Hp.
  destruct (is_FileNotFoundError e); simpl;
    (eexists; split; [done|]); by rewrite <- !app_assoc.
Qed.

End ReaderExtras.

Section GeneratorExtras.
Context `{!Externals}.
Implicit Types (self : KubernetesManifestGenerator) (w : world)
  (context : pyval).

(** X7.  When the file can be opened but the text does not parse,
    [write_yaml] raises the parser's exception and leaves the file empty,
    whatever it held before: the file is opened, and so truncated, before
    the text is parsed.  Nothing is written, and one error is logged. *)
Theorem write_yaml_failed_parse_truncates self path data w e :
  open_w_fault path = None →
  yaml_safe_load data = Raise e →
  ∃ w',
    write_yaml self path data w = (Raise e, w')
    ∧ files w' = <[path := ""]> (files w)
    ∧ trace w' =
        trace w ++
        [ EvOpenWrite path; EvSafeLoad data;
          EvLog ERROR ("Error writing YAML to file '" +:+ path +:+ "': "
                       +:+ exn_str e) ].
Proof.
  intros Ho Hp. unfold write_yaml, open_w, safe_load, dump_to. unfold_m.
  simpl. rewrite Ho. simpl. rewrite Hp.
  eexists. split; [done|]. simpl. by rewrite <- !app_assoc.
Qed.

(** X8.  When the file cannot be opened for writing, [write_yaml] raises
    the error of the open, changes no file and does not parse the text. *)
Theorem write_yaml_refused_open_changes_nothing self path data w e :
  open_w_fault path = Some e →
  ∃ w',
    write_yaml self path data w = (Raise e, w')
    ∧ files w' = files w
    ∧ trace w' =
        trace w ++
        [ EvOpenWrite path;
          EvLog ERROR ("Error writing YAML to file '" +:+ path +:+ "': "
                       +:+ exn_str e) ].
Proof.
  intros Ho. unfold write_yaml, open_w, safe_load, dump_to. unfold_m.
  simpl. rewrite Ho.
  eexists. split; [done|]. simpl. by rewrite <- !app_assoc.
Qed.

Lemma template_path_not_output self (b b' : string * string) :
  b ∈ templates → b' ∈ templates →
  template_path (template_renderer self) (snd b')
    ∉ map (output_path self) templates.
Proof.
  intros Hb Hb'. rewrite map_fmap.
  intros (b0 & Heq & Hb0)%list_elem_of_fmap.
  by apply (templates_separated self b0 b' Hb0 Hb').
Qed.

End GeneratorExtras.

Section RunExtras.
Context `{!Externals}.
Implicit Types (self : App) (w : world).

(** X10.  However it ends, [run] changes no file other than the four
    output files, and leaves directories and environment as they were. *)
Theorem run_changes_only_output_files self w path :
  path ∉ map (os_path_join (output_dir (k8s_generator self)))
           ["service.yaml"; "ingress.yaml"; "deploy.yaml"; "hpa.yaml"] →
  files (snd (App_run self w)) !! path = files w !! path
  ∧ dirs (snd (App_run self w)) = dirs w
  ∧ environ (snd (App_run self w)) = environ w.
Proof.
  intros Hp.
  destruct (run_run self w) as (fs' & evs & -> & _ & _ & Hcase). simpl.
  split; [|done].
  destruct (read_result _ _ _ _).
  - destruct Hcase as (_ & _ & _ & Hframe & _). apply Hframe.
    intros Hin%subseteq_take. by apply Hp.
  - by destruct Hcase as (-> & _).
Qed.

(** X11.  However it ends and whatever the directories are, [run] leaves
    the source of each of the four templates as it was: no output path is
    a template path. *)
Theorem run_never_overwrites_templates self w file_name template_name :
  (file_name, template_name) ∈ templates →
  files (snd (App_run self w))
    !! os_path_join (template_dir (template_renderer (k8s_generator self)))
         template_name
  = files w
      !! os_path_join (template_dir (template_renderer (k8s_generator self)))
           template_name.
Proof.
  intros Hb.
  destruct (run_run self w) as (fs' & evs & -> & _ & _ & Hcase). simpl.
  destruct (read_result _ _ _ _).
  - destruct Hcase as (_ & _ & _ & Hframe & _). apply Hframe.
    intros Hin%subseteq_take.
    by apply (template_path_not_output (k8s_generator self) _ _ Hb Hb).
  - by destruct Hcase as (-> & _).
Qed.

(** X12.  When the output directory's path is that of a regular file,
    the constructor raises the file-exists error of [os.makedirs]: the
    program stops there, without a log record, without opening the values
    file, and with every file as it was. *)
Theorem output_path_is_file_stops_program env_file template_dir output_dir w content :
  output_dir ≠ "" →
  files w !! output_dir = Some content →
  (a <- App_init env_file template_dir output_dir ;; App_run a) w =
    (Raise (Exn FileExistsError ("[Errno 17] File exists: '" +:+ output_dir +:+ "'")),
     {| files := files w; dirs := dirs w; environ := environ w;
        trace := trace w ++ [EvMakedirs output_dir] |}).
Proof.
  intros Hne%String.eqb_neq Hfile.
  unfold App_init, KubernetesManifestGenerator_init, os_makedirs.
  unfold_m. simpl. by rewrite Hne, Hfile.
Qed.


End RunExtras.

(** ** These properties on the example inputs *)

Section MoreExamples.
Local Existing Instance Demo.lib.

Lemma demo_env_cases k : is_Some (Demo.env !! k) → k = "image" ∨ k = "HOME".
Proof.
  intros [v Hk]. unfold Demo.env in Hk.
  apply lookup_insert_Some in Hk as [[<- _]|[_ Hk]]; [by left|].
  apply lookup_singleton_Some in Hk as [<- _]. by right.
Qed.

(** X1 on the example: an empty values file. *)
Lemma read_scalar_document_raises_witness :
  fst (EnvReader_read {| env_file := "values.yaml" |} Demo.w_empty_values)
    = Raise (Exn TypeError "argument of type 'NoneType' is not iterable").
Proof.
  apply (read_scalar_document_raises {| env_file := "values.yaml" |}
           Demo.w_empty_values "" PNone).
  - vm_compute. reflexivity.
  - reflexivity.
  - reflexivity.
  - apply insert_non_empty.
Defined.

(** X2 on the examples: a scalar that names no variable, and one in
    which [image] occurs. *)
Lemma read_string_document_witness :
  fst (EnvReader_read {| env_file := "values.yaml" |} Cases.w_plain_scalar)
    = Ok (PStr "hello")
  ∧ fst (EnvReader_read {| env_file := "values.yaml" |}
           Cases.w_scalar_naming_image)
    = Raise (Exn TypeError "'str' object does not support item assignment").
Proof.
  split.
  - destruct (read_string_document {| env_file := "values.yaml" |}
                Cases.w_plain_scalar "hello" "hello") as [Hno _].
    + vm_compute. reflexivity.
    + reflexivity.
    + apply Hno. intros k [-> | ->]%demo_env_cases; reflexivity.
  - destruct (read_string_document {| env_file := "values.yaml" |}
                Cases.w_scalar_naming_image "my image" "my image") as [_ Hhit].
    + vm_compute. reflexivity.
    + reflexivity.
    + apply (Hhit "image"); [|reflexivity].
      exists "app:v2". vm_compute. reflexivity.
Defined.

(** X3 on the examples: the sequence [[a, b]] under the usual
    environment, and under one with a variable called [a]. *)
Lemma read_sequence_document_witness :
  fst (EnvReader_read {| env_file := "values.yaml" |} Demo.w_list_values)
    = Ok (PList [PStr "a"; PStr "b"])
  ∧ fst (EnvReader_read {| env_file := "values.yaml" |} Cases.w_list_naming_a)
    = Raise (Exn TypeError "list indices must be integers or slices, not str").
Proof.
  split.
  - destruct (read_sequence_document {| env_file := "values.yaml" |}
                Demo.w_list_values "[a, b]" [PStr "a"; PStr "b"]) as [Hno _].
    + vm_compute. reflexivity.
    + reflexivity.
    + apply Hno. intros k [-> | ->]%demo_env_cases; reflexivity.
  - destruct (read_sequence_document {| env_file := "values.yaml" |}
                Cases.w_list_naming_a "[a, b]" [PStr "a"; PStr "b"]) as [_ Hhit].
    + vm_compute. reflexivity.
    + reflexivity.
    + apply (Hhit "a"); [|reflexivity].
      exists "1". vm_compute. reflexivity.
Defined.

(** X4 on the example of the specification. *)
Lemma read_is_overlay_witness :
  fst (EnvReader_read {| env_file := "values.yaml" |} Demo.w0)
    = Ok (PDict [ (PStr "replicaCount", PInt 3); (PStr "image", PStr "app:v2") ]).
Proof.
  etrans.
  - apply (read_is_overlay {| env_file := "values.yaml" |} Demo.w0
             Demo.values_text
             [(PStr "replicaCount", PInt 3); (PStr "image", PStr "app:v1")]).
    + vm_compute. reflexivity.
    + reflexivity.
    + apply NoDup_cons. split; [|apply NoDup_singleton].
      intros Hin%list_elem_of_singleton. discriminate.
  - vm_compute. reflexivity.
Defined.

(** X6 on the example: an unbalanced values file. *)
Lemma read_reraises_parse_error_witness :
  fst (EnvReader_read {| env_file := "values.yaml" |} Cases.w_bad_values)
    = Raise Demo.yaml_error.
Proof.
  destruct (read_reraises_parse_error {| env_file := "values.yaml" |}
              Cases.w_bad_values "{" Demo.yaml_error) as (w' & -> & _).
  - vm_compute. reflexivity.
  - reflexivity.
  - reflexivity.
Defined.

(** X7 on the example: the manifest of an earlier run is lost. *)
Lemma write_yaml_failed_parse_truncates_witness :
  files Cases.w_stale_ingress !! "output/ingress.yaml" = Some "kind: Old"
  ∧ files (snd (write_yaml Demo.gen "output/ingress.yaml" "{"
                  Cases.w_stale_ingress)) !! "output/ingress.yaml" = Some "".
Proof.
  split; [vm_compute; reflexivity|].
  destruct (write_yaml_failed_parse_truncates Demo.gen "output/ingress.yaml" "{"
              Cases.w_stale_ingress Demo.yaml_error) as (w' & Hrun & Hfiles & _).
  - reflexivity.
  - reflexivity.
  - rewrite Hrun. cbn [snd]. rewrite Hfiles. apply lookup_insert_eq.
Defined.

(** X8 on the example: the deployment manifest is read-only. *)
Lemma write_yaml_refused_open_changes_nothing_witness :
  files (snd (@write_yaml Demo.lib_readonly_deploy Demo.gen
                "output/deploy.yaml" "kind: Deployment" Demo.w0))
    = files Demo.w0.
Proof.
  destruct (@write_yaml_refused_open_changes_nothing Demo.lib_readonly_deploy
              Demo.gen "output/deploy.yaml" "kind: Deployment" Demo.w0
              (Exn OSError "[Errno 13] Permission denied: 'output/deploy.yaml'"))
    as (w' & Hrun & Hfiles & _).
  - reflexivity.
  - rewrite Hrun. exact Hfiles.
Defined.

(** X10 on the example: a run that fails at the ingress manifest leaves
    the values file alone. *)
Lemma run_changes_only_output_files_witness :
  files (snd (App_run Demo.app Demo.w_bad_ingress)) !! "values.yaml"
    = Some Demo.values_text.
Proof.
  destruct (run_changes_only_output_files Demo.app Demo.w_bad_ingress
              "values.yaml") as (-> & _).
  - intros Hin. vm_compute in Hin.
    repeat (apply elem_of_cons in Hin as [Hin|Hin]; [discriminate|]).
    by apply elem_of_nil in Hin.
  - vm_compute. reflexivity.
Defined.

(** X11 on the example: the deployment template after a run. *)
Lemma run_never_overwrites_templates_witness :
  files (snd (App_run Demo.app Demo.w0)) !! "templates/deploy.yaml.j2"
    = Some "image: {{ image }}".
Proof.
  etrans.
  - apply (run_never_overwrites_templates Demo.app Demo.w0
             "deploy.yaml" "deploy.yaml.j2").
    unfold templates. rewrite !elem_of_cons. auto.
  - vm_compute. reflexivity.
Defined.

(** X12 on the example: [output] is a regular file. *)
Lemma output_path_is_file_stops_program_witness :
  fst (main Cases.w_output_is_file)
    = Raise (Exn FileExistsError "[Errno 17] File exists: 'output'").
Proof.
  unfold main.
  rewrite (output_path_is_file_stops_program ENV_FILE TEMPLATE_DIR OUTPUT_DIR
             Cases.w_output_is_file "not a directory").
  - reflexivity.
  - discriminate.
  - vm_compute. reflexivity.
Defined.


End MoreExamples.
